(** * quantumfed: the dataset-loading pipeline

    A shallow embedding of [quantumfed/data/datasets.py]: the factory
    [get_dataset], the abstract loader [BaseDataset] with its pipeline
    load -> preprocess -> split, and the concrete loader [SimpleNSLKDD].

    The program is a thin layer over pandas and scikit-learn.  The calls it
    makes into those libraries are modelled here by what the libraries
    compute:
    - [read_csv], [iloc], [get_dummies], [unique] (pandas);
    - [MinMaxScaler_fit_transform], [train_test_split] (scikit-learn).
    float64 numbers are IEEE-754 binary64 values ([spec_float] of the
    standard library at precision 53), so rounding is the machine's.  The
    numeric operations the pipeline applies to table entries are collected
    in a record [arith], which has two instances: [b64], the arithmetic the
    program runs on, and [exact], the same formulas over the rationals.
    The pseudo-random order in which the splitter lists the rows is a
    parameter ([cv_order]); the file system is a parameter too. *)

From Stdlib Require Import String Ascii DecimalString.
From Stdlib Require Import ZArith QArith Qminmax Bool Lia SpecFloat.
From Stdlib Require Import List Permutation Sorted.
Import List ListNotations.

Local Open Scope string_scope.
Local Open Scope list_scope.
Local Open Scope Z_scope.

(** ** Python: exceptions and printed output *)

(** The exceptions the pipeline can raise.  [EmptyDataError] is pandas'
    (a subclass of [ValueError] there). *)
Inductive exn : Type :=
| ValueError (msg : string)
| IndexError (msg : string)
| OverflowError (msg : string)
| FileNotFoundError (msg : string)
| EmptyDataError (msg : string).

(** A computation prints lines and then returns or raises. *)
Definition M (A : Type) : Type := (list string * (exn + A))%type.

Definition ret {A} (a : A) : M A := ([], inr a).
Definition raise {A} (e : exn) : M A := ([], inl e).
Definition print (line : string) : M unit := ([line], inr tt).
Definition lift {A} (r : exn + A) : M A := ([], r).

Definition bind {A B} (m : M A) (k : A -> M B) : M B :=
  match m with
  | (out, inl e) => (out, inl e)
  | (out, inr a) => let (out', r) := k a in (out ++ out', r)
  end.

Declare Scope py_scope.
Delimit Scope py_scope with py.
Notation "x <- m ;; k" := (bind m (fun x => k))
  (at level 61, m at next level, right associativity) : py_scope.
Notation "' pat <- m ;; k" := (bind m (fun x => match x with pat => k end))
  (at level 61, pat pattern, m at next level, right associativity) : py_scope.
Notation "m ;; k" := (bind m (fun _ => k))
  (at level 61, right associativity) : py_scope.

Definition outcome {A} (m : M A) : exn + A := snd m.

(** [str(n)] for a natural number and for an integer. *)
Definition str_nat (n : nat) : string := NilZero.string_of_uint (Nat.to_uint n).
Definition str_Z (z : Z) : string := NilZero.string_of_int (Z.to_int z).

(** [repr] of a list of plain strings, as an f-string prints it:
    ['a', 'b']. *)
Definition repr_str (s : string) : string := ("'" ++ s ++ "'")%string.
Definition repr_list (l : list string) : string :=
  ("[" ++ String.concat ", " (map repr_str l) ++ "]")%string.

(** ** float64 *)

Module Binary64.

Definition prec : Z := 53.
Definition emax : Z := 1024.

Definition float : Type := spec_float.

Definition add : float -> float -> float := SFadd prec emax.
Definition sub : float -> float -> float := SFsub prec emax.
Definition mul : float -> float -> float := SFmul prec emax.
Definition div : float -> float -> float := SFdiv prec emax.
Definition ltb : float -> float -> bool := SFltb.
Definition leb : float -> float -> bool := SFleb.

(** Conversion of a Python [int] (round to nearest, ties to even). *)
Definition of_int (z : Z) : float := binary_normalize prec emax z 0 false.

Definition zero : float := S754_zero false.
Definition one : float := of_int 1.

(** The float a decimal literal [n/d] denotes, for [n] and [d] that are
    floats themselves: the correctly rounded quotient. *)
Definition of_ratio (n d : Z) : float := div (of_int n) (of_int d).

Definition isnan (x : float) : bool :=
  match x with S754_nan => true | _ => false end.
Definition isinf (x : float) : bool :=
  match x with S754_infinity _ => true | _ => false end.

(** Equality of two float64 keys in a pandas hash table: numeric
    equality, and every NaN equals every NaN. *)
Definition key_eqb (x y : float) : bool :=
  (isnan x && isnan y) || SFeqb x y.

(** The integer [s * m], the significand with its sign. *)
Definition significand (s : bool) (m : positive) : Z := cond_Zopp s (Zpos m).

(** [int(x)]: truncation towards zero. *)
Definition to_int (x : float) : exn + Z :=
  match x with
  | S754_nan => inl (ValueError "cannot convert float NaN to integer")
  | S754_infinity _ =>
      inl (OverflowError "cannot convert float infinity to integer")
  | S754_zero _ => inr 0
  | S754_finite s m e =>
      inr (if 0 <=? e then significand s m * 2 ^ e
           else Z.quot (significand s m) (2 ^ (- e)))
  end.

(** [math.floor(x)]: the largest integer below or equal to [x]. *)
Definition floor (x : float) : exn + Z :=
  match x with
  | S754_nan => inl (ValueError "cannot convert float NaN to integer")
  | S754_infinity _ =>
      inl (OverflowError "cannot convert float infinity to integer")
  | S754_zero _ => inr 0
  | S754_finite s m e =>
      inr (if 0 <=? e then significand s m * 2 ^ e
           else Z.div (significand s m) (2 ^ (- e)))
  end.

(** [math.ceil(x)]: the smallest integer above or equal to [x]. *)
Definition ceil (x : float) : exn + Z :=
  match x with
  | S754_nan => inl (ValueError "cannot convert float NaN to integer")
  | S754_infinity _ =>
      inl (OverflowError "cannot convert float infinity to integer")
  | S754_zero _ => inr 0
  | S754_finite s m e =>
      inr (if 0 <=? e then significand s m * 2 ^ e
           else - Z.div (- significand s m) (2 ^ (- e)))
  end.

(** Machine epsilon of float64, [numpy.finfo(float64).eps]. *)
Definition eps : float := S754_finite false 4503599627370496 (-104).

(** The value a float denotes, for the finite ones. *)
Definition to_Q (x : float) : Q :=
  match x with
  | S754_finite s m e =>
      if 0 <=? e then inject_Z (significand s m * 2 ^ e)
      else Qmake (significand s m) (Z.to_pos (2 ^ (- e)))
  | _ => 0%Q
  end.

(** A float that is not a negative number: zero, a positive number, an
    infinity or NaN. *)
Definition not_negative (x : float) : Prop :=
  match x with S754_finite true _ _ => False | _ => True end.

End Binary64.

(** ** The arithmetic of table entries

    What the pipeline computes with the numbers of a table: conversion from
    an integer column, the four operations and a comparison, the tests for
    NaN and infinity, and the threshold under which the scaler takes a
    range for zero. *)
Record arith (T : Type) : Type := {
  zero : T;
  one : T;
  nan : T;
  of_Z : Z -> T;
  add : T -> T -> T;
  sub : T -> T -> T;
  mul : T -> T -> T;
  div : T -> T -> T;
  ltb : T -> T -> bool;
  key_eqb : T -> T -> bool;
  isnan : T -> bool;
  isinf : T -> bool;
  tiny : T
}.
Arguments zero {T}. Arguments one {T}. Arguments nan {T}.
Arguments of_Z {T}. Arguments add {T}. Arguments sub {T}.
Arguments mul {T}. Arguments div {T}. Arguments ltb {T}.
Arguments key_eqb {T}. Arguments isnan {T}. Arguments isinf {T}.
Arguments tiny {T}.

(** float64, the arithmetic of numpy arrays; [tiny] is [10 * eps]. *)
Definition b64 : arith Binary64.float := {|
  zero := Binary64.zero;
  one := Binary64.one;
  nan := S754_nan;
  of_Z := Binary64.of_int;
  add := Binary64.add;
  sub := Binary64.sub;
  mul := Binary64.mul;
  div := Binary64.div;
  ltb := Binary64.ltb;
  key_eqb := Binary64.key_eqb;
  isnan := Binary64.isnan;
  isinf := Binary64.isinf;
  tiny := Binary64.mul (Binary64.of_int 10) Binary64.eps
|}.

(** The same operations without rounding, over the rationals: no NaN, no
    infinity ([nan] is never produced), [tiny] is [10 * 2^-52]. *)
Definition exact : arith Q := {|
  zero := 0%Q;
  one := 1%Q;
  nan := 0%Q;
  of_Z := inject_Z;
  add := Qplus;
  sub := Qminus;
  mul := Qmult;
  div := Qdiv;
  ltb := fun x y => negb (Qle_bool y x);
  key_eqb := Qeq_bool;
  isnan := fun _ => false;
  isinf := fun _ => false;
  tiny := Qmake 10 (2 ^ 52)
|}.

(** ** pandas *)

(** A column holds values of one dtype: int64, float64, or object
    (strings). *)
Inductive series (T : Type) : Type :=
| IntCol (l : list Z)
| FloatCol (l : list T)
| ObjCol (l : list string).
Arguments IntCol {T}. Arguments FloatCol {T}. Arguments ObjCol {T}.

(** One value of a column, as [Series.values] lists them. *)
Inductive cell (T : Type) : Type :=
| CInt (z : Z)
| CFloat (x : T)
| CStr (s : string).
Arguments CInt {T}. Arguments CFloat {T}. Arguments CStr {T}.

(** A column label: a position (what [read_csv] gives without a header)
    or a string. *)
Inductive colname : Type :=
| Pos (i : nat)
| Name (s : string).

(** A DataFrame: its columns from left to right. [pd.DataFrame()] is the
    frame without columns. *)
Definition DataFrame (T : Type) : Type := list (colname * series T).

(** What [read_csv] parses out of a file: the columns of the table.  A
    file system gives that for the paths that exist. *)
Definition filesystem (T : Type) : Type := string -> option (list (series T)).

Definition str_colname (c : colname) : string :=
  match c with Pos i => str_nat i | Name s => s end.

Section Pandas.
Context {T : Type} (A : arith T).

Definition values (s : series T) : list (cell T) :=
  match s with
  | IntCol l => map CInt l
  | FloatCol l => map CFloat l
  | ObjCol l => map CStr l
  end.

Definition series_len (s : series T) : nat := length (values s).

(** Number of rows of a frame. *)
Definition nrows (df : DataFrame T) : nat :=
  match df with [] => 0%nat | (_, s) :: _ => series_len s end.

Definition columns (df : DataFrame T) : list colname := map fst df.

(** [pd.read_csv(path, header=None)]. *)
Definition read_csv (fs : filesystem T) (path : string)
  : exn + DataFrame T :=
  match fs path with
  | None =>
      inl (FileNotFoundError
             ("[Errno 2] No such file or directory: " ++ repr_str path)%string)
  | Some [] => inl (EmptyDataError "No columns to parse from file")
  | Some cols => inr (combine (map Pos (seq 0 (length cols))) cols)
  end.

(** [df.columns = names]. *)
Definition set_columns (df : DataFrame T) (names : list colname)
  : exn + DataFrame T :=
  if (length names =? length df)%nat
  then inr (combine names (map snd df))
  else inl (ValueError "Length mismatch: Expected axis has a different number of elements").

(** [df.iloc[:, :-1]]. *)
Definition iloc_but_last (df : DataFrame T) : DataFrame T := removelast df.

(** [df.iloc[:, -1]]. *)
Definition iloc_last (df : DataFrame T) : exn + series T :=
  match rev df with
  | [] => inl (IndexError "single positional indexer is out-of-bounds")
  | (_, s) :: _ => inr s
  end.

(** Equality of two values as keys of a hash table. *)
Definition cell_eqb (a b : cell T) : bool :=
  match a, b with
  | CInt x, CInt y => (x =? y)%Z
  | CFloat x, CFloat y => key_eqb A x y
  | CStr x, CStr y => (x =? y)%string
  | _, _ => false
  end.

(** [pd.unique(y)]: the distinct values in order of first appearance. *)
Fixpoint unique_from (seen : list (cell T)) (l : list (cell T))
  : list (cell T) :=
  match l with
  | [] => []
  | c :: r =>
      if existsb (cell_eqb c) seen then unique_from seen r
      else c :: unique_from (c :: seen) r
  end.
Definition unique (l : list (cell T)) : list (cell T) := unique_from [] l.

(** The sorted distinct strings of an object column (its categories). *)
Fixpoint insert_sorted (s : string) (l : list string) : list string :=
  match l with
  | [] => [s]
  | x :: r =>
      if (s =? x)%string then l
      else if String.ltb s x then s :: l
      else x :: insert_sorted s r
  end.
Definition levels (l : list string) : list string :=
  fold_right insert_sorted [] l.

Definition is_object (c : colname * series T) : bool :=
  match snd c with ObjCol _ => true | _ => false end.

(** The indicator columns of one object column, the first category
    dropped. *)
Definition dummies_1d (c : colname * series T) : DataFrame T :=
  match snd c with
  | ObjCol l =>
      map (fun lv =>
             (Name (str_colname (fst c) ++ "_" ++ lv)%string,
              IntCol (map (fun v => if (v =? lv)%string then 1 else 0) l)))
          (tl (levels l))
  | _ => []
  end.

(** [pd.get_dummies(X, drop_first=True)]: the columns that are not of
    dtype object first, then the indicator columns of each object
    column, concatenated. Concatenating nothing is an error. *)
Definition get_dummies (X : DataFrame T) : exn + DataFrame T :=
  let to_encode := filter is_object X in
  let with_dummies :=
    (if (length to_encode =? length X)%nat then []
     else [filter (fun c => negb (is_object c)) X])
    ++ map dummies_1d to_encode in
  match with_dummies with
  | [] => inl (ValueError "No objects to concatenate")
  | _ => inr (concat with_dummies)
  end.

End Pandas.

(** ** scikit-learn *)

(** A 2-D numpy array: its rows. *)
Definition matrix (T : Type) : Type := list (list T).

(** The order in which the splitter seeded with [random_state] lists the
    row indices of [n_samples] rows, the [n_test] test rows first:
    [ShuffleSplit] without [stratify], [StratifiedShuffleSplit] with. *)
Definition splitter (T : Type) : Type :=
  Z -> option (list (cell T)) -> nat -> nat -> list nat.

(** A splitter lists every row exactly once. *)
Definition splitter_ok {T} (cv_order : splitter T) : Prop :=
  forall seed stratify n n_test,
    Permutation (cv_order seed stratify n n_test) (seq 0 n).

Section Sklearn.
Context {T : Type} (A : arith T).
Variable cv_order : splitter T.

Fixpoint sequence {X} (l : list (exn + X)) : exn + list X :=
  match l with
  | [] => inr []
  | inl e :: _ => inl e
  | inr x :: r =>
      match sequence r with inl e => inl e | inr xs => inr (x :: xs) end
  end.

(** Conversion of a column to float64. *)
Definition to_float (c : colname * series T) : exn + list T :=
  match snd c with
  | IntCol l => inr (map (of_Z A) l)
  | FloatCol l => inr l
  | ObjCol _ => inl (ValueError "could not convert string to float")
  end.

(** [numpy.nanmin] and [numpy.nanmax] of a column. *)
Definition nan_fold (pick : T -> T -> T) (col : list T) : T :=
  match filter (fun x => negb (isnan A x)) col with
  | [] => nan A
  | x :: r => fold_left pick r x
  end.
Definition pick_min (m v : T) : T := if ltb A v m then v else m.
Definition pick_max (m v : T) : T := if ltb A m v then v else m.
Definition nanmin : list T -> T := nan_fold pick_min.
Definition nanmax : list T -> T := nan_fold pick_max.

(** [_handle_zeros_in_scale]: a range below [10 * eps] counts as 1. *)
Definition handle_zeros_in_scale (r : T) : T :=
  if ltb A r (tiny A) then one A else r.

(** [MinMaxScaler()] fitted on a column and applied to it, with
    [feature_range = (0, 1)]:
    [scale_ = (1 - 0) / handle_zeros(max - min)],
    [min_ = 0 - min * scale_], and [x * scale_ + min_] for each [x]. *)
Definition scale_column (col : list T) : list T :=
  let data_min := nanmin col in
  let data_max := nanmax col in
  let data_range := sub A data_max data_min in
  let scale_ :=
    div A (sub A (one A) (zero A)) (handle_zeros_in_scale data_range) in
  let min_ := sub A (zero A) (mul A data_min scale_) in
  map (fun x => add A (mul A x scale_) min_) col.

(** The rows of an array given by its columns. *)
Definition rows_of (n : nat) (cols : list (list T)) : matrix T :=
  map (fun i =>
         flat_map (fun c => match nth_error c i with
                            | Some v => [v]
                            | None => []
                            end) cols)
      (seq 0 n).

(** [MinMaxScaler().fit_transform(X)]. *)
Definition MinMaxScaler_fit_transform (X : DataFrame T) : exn + matrix T :=
  match sequence (map to_float X) with
  | inl e => inl e
  | inr cols =>
      if existsb (existsb (isinf A)) cols
      then inl (ValueError "Input X contains infinity or a value too large for dtype('float64').")
      else if (nrows X =? 0)%nat
      then inl (ValueError "Found array with 0 sample(s) while a minimum of 1 is required by MinMaxScaler.")
      else match cols with
           | [] => inl (ValueError "Found array with 0 feature(s) while a minimum of 1 is required by MinMaxScaler.")
           | _ => inr (rows_of (nrows X) (map scale_column cols))
           end
  end.

(** [a[idx]] for a list of row indices. *)
Definition safe_indexing {X} (a : list X) (idx : list nat) : exn + list X :=
  sequence
    (map (fun i => match nth_error a i with
                   | Some v => inr v
                   | None => inl (IndexError "index is out of bounds")
                   end) idx).

(** How often a class occurs among the labels, and how often the least
    frequent one does. *)
Definition class_count (y : list (cell T)) (c : cell T) : nat :=
  List.length (filter (cell_eqb A c) y).
Definition min_class_count (y : list (cell T)) : nat :=
  match map (class_count y) (unique A y) with
  | [] => 0%nat
  | c :: r => fold_left Nat.min r c
  end.

(** [train_test_split(X, y, test_size=.., random_state=.., stratify=..)]
    for a float [test_size]; the result is
    [(X_train, X_test, y_train, y_test)]. *)
Definition train_test_split (X : matrix T) (y : list (cell T))
    (test_size : Binary64.float) (random_state : Z)
    (stratify : option (list (cell T)))
  : exn + (matrix T * matrix T * list (cell T) * list (cell T)) :=
  if negb (List.length X =? List.length y)%nat
  then inl (ValueError "Found input variables with inconsistent numbers of samples")
  else
    let n_samples := List.length X in
    if Binary64.leb test_size Binary64.zero
       || Binary64.leb Binary64.one test_size
    then inl (ValueError "test_size should be a float in the (0, 1) range")
    else
      match Binary64.ceil
              (Binary64.mul test_size (Binary64.of_int (Z.of_nat n_samples)))
      with
      | inl e => inl e
      | inr n_test =>
          let n_train := Z.of_nat n_samples - n_test in
          if n_train =? 0
          then inl (ValueError "the resulting train set will be empty")
          else
            let checked :=
              match stratify with
              | None => inr tt
              | Some s =>
                  let n_classes := Z.of_nat (List.length (unique A s)) in
                  if (min_class_count s <? 2)%nat
                  then inl (ValueError "The least populated class in y has only 1 member, which is too few.")
                  else if n_train <? n_classes
                  then inl (ValueError "The train_size should be greater or equal to the number of classes")
                  else if n_test <? n_classes
                  then inl (ValueError "The test_size should be greater or equal to the number of classes")
                  else inr tt
              end in
            match checked with
            | inl e => inl e
            | inr _ =>
                let order :=
                  cv_order random_state stratify n_samples (Z.to_nat n_test) in
                let test := firstn (Z.to_nat n_test) order in
                let train :=
                  firstn (Z.to_nat n_train) (skipn (Z.to_nat n_test) order) in
                match safe_indexing X train, safe_indexing X test,
                      safe_indexing y train, safe_indexing y test with
                | inr X_tr, inr X_te, inr y_tr, inr y_te =>
                    inr (X_tr, X_te, y_tr, y_te)
                | inl e, _, _, _ | _, inl e, _, _
                | _, _, inl e, _ | _, _, _, inl e => inl e
                end
            end
      end.

End Sklearn.

(** ** The program: [quantumfed/data/datasets.py] *)

Module BaseDataset.

(** The fields of a loader object; [None] before the split has stored
    the four containers. *)
Record obj (T : Type) : Type := {
  data_path : string;
  test_size : Binary64.float;
  random_state : Z;
  X_train : option (matrix T);
  y_train : option (list (cell T));
  X_test : option (matrix T);
  y_test : option (list (cell T))
}.
Arguments data_path {T}. Arguments test_size {T}.
Arguments random_state {T}. Arguments X_train {T}. Arguments y_train {T}.
Arguments X_test {T}. Arguments y_test {T}.

(** The defaults of [__init__]: [test_size=0.2] (the float64 nearest to
    2/10, 0x1.999999999999ap-3) and [random_state=42]. *)
Definition default_test_size : Binary64.float :=
  S754_finite false 7205759403792794 (-55).
Definition default_random_state : Z := 42.

Section Methods.
Context {T : Type} (A : arith T).
Variable cv_order : splitter T.

(** [_preprocess(self, df)] *)
Definition _preprocess (df : DataFrame T) : M (matrix T * list (cell T)) :=
  (let X := iloc_but_last df in
   y <- lift (iloc_last df) ;;
   X <- lift (get_dummies X) ;;
   X <- lift (MinMaxScaler_fit_transform A X) ;;
   ret (X, values y))%py.

(** The warning of [_split_data]. *)
Definition stratify_warning (test_samples num_classes : Z) : string :=
  ("Warning: Test set size (" ++ str_Z test_samples
   ++ ") is smaller than number of classes (" ++ str_Z num_classes
   ++ "). Disabling stratification for this split.")%string.

(** The assignment of the four containers. *)
Definition store (self : obj T)
    (r : matrix T * matrix T * list (cell T) * list (cell T)) : obj T :=
  let '(X_tr, X_te, y_tr, y_te) := r in
  {| data_path := data_path self;
     test_size := test_size self;
     random_state := random_state self;
     X_train := Some X_tr;
     y_train := Some y_tr;
     X_test := Some X_te;
     y_test := Some y_te |}.

(** What [_split_data] prints once the split is stored. *)
Definition report (self : obj T) : M (obj T) :=
  (print "Data split completed." ;;
   print ("Train set size: "
          ++ str_nat (List.length (match X_train self with
                                   | Some m => m | None => [] end)))%string ;;
   print ("Test set size: "
          ++ str_nat (List.length (match X_test self with
                                  | Some m => m | None => [] end)))%string ;;
   ret self)%py.

(** [_split_data(self, X, y)] *)
Definition _split_data (self : obj T) (X : matrix T) (y : list (cell T))
  : M (obj T) :=
  (let num_samples := Z.of_nat (List.length y) in
   let num_classes := Z.of_nat (List.length (unique A y)) in
   test_samples <-
     lift (Binary64.to_int
             (Binary64.mul (Binary64.of_int num_samples) (test_size self))) ;;
   let should_stratify := num_classes <=? test_samples in
   let stratify_option := if should_stratify then Some y else None in
   (if negb should_stratify
    then print (stratify_warning test_samples num_classes)
    else ret tt) ;;
   r <- lift (train_test_split A cv_order X y (test_size self)
                (random_state self) stratify_option) ;;
   report (store self r))%py.

(** [_load_and_process(self)], for the [_load_data] of the class of
    [self]. *)
Definition _load_and_process (_load_data : obj T -> M (DataFrame T))
    (self : obj T) : M (obj T) :=
  (print ("Loading data from " ++ data_path self ++ "...")%string ;;
   raw_df <- _load_data self ;;
   print "Preprocessing data..." ;;
   '(X, y) <- _preprocess raw_df ;;
   self <- _split_data self X y ;;
   print "Dataset ready." ;;
   ret self)%py.

(** [__init__(self, data_path, test_size=0.2, random_state=42)] *)
Definition __init__ (_load_data : obj T -> M (DataFrame T))
    (data_path : string) (test_size : Binary64.float) (random_state : Z)
  : M (obj T) :=
  let self := {| data_path := data_path;
                 test_size := test_size;
                 random_state := random_state;
                 X_train := None; y_train := None;
                 X_test := None; y_test := None |} in
  _load_and_process _load_data self.

(** [get_data(self)]: the object after the call and the tuple
    returned. *)
Definition get_data (self : obj T)
  : obj T * (option (matrix T) * option (list (cell T))
             * option (matrix T) * option (list (cell T))) :=
  (self, (X_train self, y_train self, X_test self, y_test self)).

End Methods.
End BaseDataset.

Module SimpleNSLKDD.
Import BaseDataset.

Section Methods.
Context {T : Type} (A : arith T).
Variable fs : filesystem T.
Variable cv_order : splitter T.

(** The names [feature_0 .. feature_{n-1}] followed by [label]. *)
Definition column_names (num_features : Z) : list colname :=
  map (fun i => Name ("feature_" ++ str_nat i)%string)
      (seq 0 (Z.to_nat num_features))
  ++ [Name "label"].

(** [_load_data(self)] *)
Definition _load_data (self : obj T) : M (DataFrame T) :=
  match read_csv fs (data_path self) with
  | inr df =>
      let num_features := Z.of_nat (List.length (columns df)) - 1 in
      lift (set_columns df (column_names num_features))
  | inl (FileNotFoundError _) =>
      (print ("Error: Data file not found at " ++ data_path self)%string ;;
       print "Please create a dummy data file to proceed." ;;
       ret [])%py
  | inl e => raise e
  end.

(** [SimpleNSLKDD(data_path, test_size, random_state)]: the class does
    not override [__init__]. *)
Definition new (data_path : string) (test_size : Binary64.float)
    (random_state : Z) : M (obj T) :=
  __init__ A cv_order _load_data data_path test_size random_state.

End Methods.
End SimpleNSLKDD.

Section Factory.
Context {T : Type} (A : arith T).
Variable fs : filesystem T.
Variable cv_order : splitter T.

(** A registered class, called as [cls(data_path=data_path)]. *)
Definition dataset_class : Type :=
  string -> Binary64.float -> Z -> M (BaseDataset.obj T).

Definition dataset_map : list (string * dataset_class) :=
  [("simple_nslkdd", SimpleNSLKDD.new A fs cv_order)].

Definition keys (m : list (string * dataset_class)) : list string :=
  map fst m.

Fixpoint lookup (name : string) (m : list (string * dataset_class))
  : option dataset_class :=
  match m with
  | [] => None
  | (k, c) :: r => if (name =? k)%string then Some c else lookup name r
  end.

(** [get_dataset(name, data_path)] *)
Definition get_dataset (name data_path : string) : M (BaseDataset.obj T) :=
  match lookup name dataset_map with
  | None =>
      raise (ValueError
               ("Dataset '" ++ name
                ++ "' not recognized. Available datasets: "
                ++ repr_list (keys dataset_map))%string)
  | Some cls =>
      cls data_path BaseDataset.default_test_size
          BaseDataset.default_random_state
  end.

End Factory.

(** ** The specification's wording of the split decision

    [test_samples = floor(num_samples * test_size)]; a stratified split
    when [test_samples >= num_classes], otherwise a warning that names both
    numbers and a split without stratification. *)
Definition split_decision_spec {T} (A : arith T) (cv_order : splitter T)
    (self : BaseDataset.obj T) (X : matrix T) (y : list (cell T))
  : M (BaseDataset.obj T) :=
  (let num_samples := Z.of_nat (List.length y) in
   let num_classes := Z.of_nat (List.length (unique A y)) in
   test_samples <-
     lift (Binary64.floor
             (Binary64.mul (Binary64.of_int num_samples)
                           (BaseDataset.test_size self))) ;;
   if num_classes <=? test_samples
   then
     r <- lift (train_test_split A cv_order X y (BaseDataset.test_size self)
                  (BaseDataset.random_state self) (Some y)) ;;
     BaseDataset.report (BaseDataset.store self r)
   else
     print ("Warning: Test set size (" ++ str_Z test_samples
            ++ ") is smaller than number of classes (" ++ str_Z num_classes
            ++ "). Disabling stratification for this split.")%string ;;
     r <- lift (train_test_split A cv_order X y (BaseDataset.test_size self)
                  (BaseDataset.random_state self) None) ;;
     BaseDataset.report (BaseDataset.store self r))%py.

(** [n] successive calls of [get_data]: the object after the last call and
    the tuples returned, first call first. *)
Fixpoint get_data_calls {T} (n : nat) (self : BaseDataset.obj T)
  : BaseDataset.obj T
    * list (option (matrix T) * option (list (cell T))
            * option (matrix T) * option (list (cell T))) :=
  match n with
  | O => (self, [])
  | S k =>
      let (self1, t) := BaseDataset.get_data self in
      let (self2, ts) := get_data_calls k self1 in
      (self2, t :: ts)
  end.

(** The object [__init__] starts from: the three parameters stored, the
    four containers [None]. *)
Definition fresh {T} (path : string) (ts : Binary64.float) (rs : Z)
  : BaseDataset.obj T :=
  {| BaseDataset.data_path := path;
     BaseDataset.test_size := ts;
     BaseDataset.random_state := rs;
     BaseDataset.X_train := None; BaseDataset.y_train := None;
     BaseDataset.X_test := None; BaseDataset.y_test := None |}.

(** What construction prints before it stops, for a missing file. *)
Definition missing_file_output (path : string) : list string :=
  [ ("Loading data from " ++ path ++ "...")%string;
    ("Error: Data file not found at " ++ path)%string;
    "Please create a dummy data file to proceed.";
    "Preprocessing data..." ].

(** A file system in which [path] does not exist. *)
Definition without {T} (fs : filesystem T) (path : string) : filesystem T :=
  fun p => if (p =? path)%string then None else fs p.


(** ** Sample data

    A table of ten rows: three numeric feature columns, one categorical
    column with two categories and a binary label with six 0s and four 1s;
    a file system that holds it, and a splitter that lists the rows in
    their order. *)
Definition sample_table : list (series Binary64.float) :=
  [ IntCol [1; 6; 3; 4; 5; 2; 3; 4; 5; 6];
    FloatCol (map Binary64.of_int [10; 20; 30; 40; 50; 60; 70; 80; 90; 100]);
    IntCol [0; 0; 1; 1; 0; 0; 1; 1; 0; 0];
    ObjCol ["tcp"; "udp"; "tcp"; "udp"; "tcp"; "udp"; "tcp"; "udp"; "tcp"; "udp"];
    IntCol [0; 1; 0; 1; 0; 1; 0; 1; 0; 0] ].

Definition sample_fs : filesystem Binary64.float :=
  fun p => if (p =? "data/raw/simple_nslkdd.csv")%string
           then Some sample_table else None.

Definition in_order {T} : splitter T := fun _ _ n _ => seq 0 n.

(** The same kind of table over the rationals. *)
Definition sample_frame_Q : DataFrame Q :=
  [ (Name "feature_0", IntCol [1; 6; 3]);
    (Name "feature_1", ObjCol ["a"; "b"; "c"]);
    (Name "label", IntCol [0; 1; 1]) ].


(** ** The entry point: [main.py] *)

(** What can end [main]: an exception of the pipeline that its handler
    does not take, or the [AttributeError] of [None.shape]. *)
Inductive main_exn : Type :=
| Uncaught (e : exn)
| AttributeError (msg : string).

(** [except (ValueError, FileNotFoundError)]: pandas' [EmptyDataError] is a
    [ValueError]. *)
Definition handled (e : exn) : bool :=
  match e with
  | ValueError _ | EmptyDataError _ | FileNotFoundError _ => true
  | IndexError _ | OverflowError _ => false
  end.

(** [str(e)] *)
Definition str_exn (e : exn) : string :=
  match e with
  | ValueError msg | IndexError msg | OverflowError msg
  | FileNotFoundError msg | EmptyDataError msg => msg
  end.

Definition newline : string := String (ascii_of_nat 10) EmptyString.

(** The two lines [main] prints before it calls the factory. *)
Definition main_header : list string :=
  [ "--- QuantumFed Framework: Data Module Test ---";
    (newline ++ "Attempting to load dataset: 'simple_nslkdd'")%string ].

Definition error_banner : string :=
  (newline ++ "--- An Error Occurred ---")%string.

Definition success_banner : string :=
  (newline ++ "--- Data Loading and Processing Successful ---")%string.

Section Main.
Context {T : Type} (A : arith T).
Variable fs : filesystem T.
Variable cv_order : splitter T.

(** How numpy prints the shape of a 2-D array and the array itself. *)
Variable str_shape : matrix T -> string.
Variable str_array : matrix T -> string.

(** The shape of a 1-D array of [n] entries: [(n,)]. *)
Definition str_shape_1d (y : list (cell T)) : string :=
  ("(" ++ str_nat (List.length y) ++ ",)")%string.

Definition none_has_no_shape : main_exn :=
  AttributeError "'NoneType' object has no attribute 'shape'".

(** The body of [try], after [get_data]: the banner, the four shapes and
    the first two rows of [X_train]. *)
Definition print_shapes
    (t : option (matrix T) * option (list (cell T))
         * option (matrix T) * option (list (cell T)))
  : list string * (main_exn + unit) :=
  let '(X_train, y_train, X_test, y_test) := t in
  match X_train with
  | None => ([success_banner], inl none_has_no_shape)
  | Some X_tr =>
      let l1 := ("X_train shape: " ++ str_shape X_tr)%string in
      match y_train with
      | None => ([success_banner; l1], inl none_has_no_shape)
      | Some y_tr =>
          let l2 := ("y_train shape: " ++ str_shape_1d y_tr)%string in
          match X_test with
          | None => ([success_banner; l1; l2], inl none_has_no_shape)
          | Some X_te =>
              let l3 := ("X_test shape: " ++ str_shape X_te)%string in
              match y_test with
              | None => ([success_banner; l1; l2; l3], inl none_has_no_shape)
              | Some y_te =>
                  ([ success_banner; l1; l2; l3;
                     ("y_test shape: " ++ str_shape_1d y_te)%string;
                     (newline ++ "Sample of preprocessed X_train data:")%string;
                     str_array (firstn 2 X_tr) ],
                   inr tt)
              end
          end
      end
  end.

(** [main()] *)
Definition main : list string * (main_exn + unit) :=
  let dataset_name := "simple_nslkdd" in
  let data_path := "data/raw/simple_nslkdd.csv" in
  match get_dataset A fs cv_order dataset_name data_path with
  | (out, inr dataset_loader) =>
      let (_, t) := BaseDataset.get_data dataset_loader in
      let (out', r) := print_shapes t in
      (main_header ++ out ++ out', r)
  | (out, inl e) =>
      if handled e
      then (main_header ++ out ++ [error_banner; str_exn e], inr tt)
      else (main_header ++ out, inl (Uncaught e))
  end.

End Main.

(** ** Shapes *)

(** A frame whose columns all have [n] values. *)
Definition rectangular {T} (n : nat) (df : DataFrame T) : Prop :=
  Forall (fun c => series_len (snd c) = n) df.

(** The categories of a column of dtype object (none for the others). *)
Definition categories {T} (c : colname * series T) : list string :=
  match snd c with ObjCol l => levels l | _ => [] end.

(** The number of columns of a frame once encoded: its numeric columns,
    and for each object column one column per category but the first. *)
Definition encoded_width {T} (X : DataFrame T) : nat :=
  (List.length (filter (fun c => negb (is_object c)) X)
   + list_sum (map (fun c => List.length (categories c) - 1)
                   (filter is_object X)))%nat.

(** The rows of [X] beside their labels. *)
Definition samples {T} (X : matrix T) (y : list (cell T))
  : list (list T * cell T) := combine X y.

(** An exception that is not [FileNotFoundError]. *)
Definition not_FileNotFoundError (e : exn) : Prop :=
  match e with FileNotFoundError _ => False | _ => True end.

(** The order of strings by which categories are sorted. *)
Definition string_lt (a b : string) : Prop := String.ltb a b = true.

(** A computation that raises exceptions of one kind only. *)
Definition raises_only {X} (P : exn -> Prop) (m : M X) : Prop :=
  forall e, outcome m = inl e -> P e.

(** A file that exists and is empty, and a file with a label column
    only. *)
Definition empty_file_fs : filesystem Binary64.float :=
  fun p => if (p =? "data/raw/simple_nslkdd.csv")%string then Some [] else None.

Definition label_only_fs : filesystem Binary64.float :=
  fun p => if (p =? "data/raw/simple_nslkdd.csv")%string
           then Some [IntCol [0; 1; 0]] else None.

(** Ten labels, one of them alone in its class. *)
Definition lonely_labels : list (cell Binary64.float) :=
  [CInt 0; CInt 0; CInt 0; CInt 0; CInt 0; CInt 0; CInt 0; CInt 0; CInt 0;
   CInt 1].

Definition ten_rows : matrix Binary64.float :=
  repeat [Binary64.zero] 10.

(** * Properties *)

(** ** The monad *)

Lemma outcome_bind_inr {A B} (m : M A) (k : A -> M B) b :
  outcome (bind m k) = inr b ->
  exists a, outcome m = inr a /\ outcome (k a) = inr b.
Proof.
  destruct m as [o1 [e | a]]; simpl.
  - discriminate.
  - destruct (k a) as [o2 r] eqn:Hk. simpl. intros ->.
    exists a. rewrite Hk. auto.
Qed.

Lemma outcome_lift {A} (r : exn + A) : outcome (lift r) = r.
Proof. reflexivity. Qed.

(** ** A data path that does not exist *)

Lemma read_csv_without {T} (fs : filesystem T) path :
  read_csv (without fs path) path
  = inl (FileNotFoundError
           ("[Errno 2] No such file or directory: " ++ repr_str path)%string).
Proof. unfold read_csv, without. now rewrite String.eqb_refl. Qed.

(** C1 (the code at a nonexistent path).  The load step does report the
    missing file and does produce the empty table, but construction does
    not complete: [_preprocess] raises [IndexError] at [df.iloc[:, -1]],
    both for a direct construction and through [get_dataset]. *)
Theorem C1_missing_file_raises_IndexError :
  forall {T} (A : arith T) (fs : filesystem T) (cv_order : splitter T)
         (path : string) (test_size : Binary64.float) (random_state : Z)
         (self : BaseDataset.obj T),
    BaseDataset.data_path self = path ->
    SimpleNSLKDD._load_data (without fs path) self
    = ([ ("Error: Data file not found at " ++ path)%string;
         "Please create a dummy data file to proceed." ], inr [])
    /\ SimpleNSLKDD.new A (without fs path) cv_order path test_size random_state
       = (missing_file_output path,
          inl (IndexError "single positional indexer is out-of-bounds"))
    /\ get_dataset A (without fs path) cv_order "simple_nslkdd" path
       = (missing_file_output path,
          inl (IndexError "single positional indexer is out-of-bounds")).
Proof.
  intros T A fs cv_order path ts rs self Hpath.
  assert (Hnew : forall ts' rs',
             SimpleNSLKDD.new A (without fs path) cv_order path ts' rs'
             = (missing_file_output path,
                inl (IndexError "single positional indexer is out-of-bounds"))).
  { intros ts' rs'.
    unfold SimpleNSLKDD.new, BaseDataset.__init__,
      BaseDataset._load_and_process, SimpleNSLKDD._load_data.
    cbn [BaseDataset.data_path]. rewrite read_csv_without. reflexivity. }
  repeat split.
  - unfold SimpleNSLKDD._load_data. rewrite Hpath, read_csv_without.
    reflexivity.
  - apply Hnew.
  - unfold get_dataset. cbn [lookup dataset_map]. apply Hnew.
Qed.

Lemma C1_missing_file_witness :
  SimpleNSLKDD.new b64 (without sample_fs "data/raw/simple_nslkdd.csv")
    in_order "data/raw/simple_nslkdd.csv"
    BaseDataset.default_test_size BaseDataset.default_random_state
  = (missing_file_output "data/raw/simple_nslkdd.csv",
     inl (IndexError "single positional indexer is out-of-bounds")).
Proof.
  refine (proj1 (proj2 (C1_missing_file_raises_IndexError b64 sample_fs
            in_order "data/raw/simple_nslkdd.csv"
            BaseDataset.default_test_size BaseDataset.default_random_state
            {| BaseDataset.data_path := "data/raw/simple_nslkdd.csv";
               BaseDataset.test_size := BaseDataset.default_test_size;
               BaseDataset.random_state := 42;
               BaseDataset.X_train := None; BaseDataset.y_train := None;
               BaseDataset.X_test := None; BaseDataset.y_test := None |}
            _))).
  reflexivity.
Defined.

(** ** What a completed construction went through *)

Section Construction.
Context {T : Type} (A : arith T).
Variable cv_order : splitter T.

Lemma report_returns (self : BaseDataset.obj T) :
  outcome (BaseDataset.report self) = inr self.
Proof. reflexivity. Qed.

Lemma store_frame (self : BaseDataset.obj T) r :
  BaseDataset.data_path (BaseDataset.store self r) = BaseDataset.data_path self
  /\ BaseDataset.test_size (BaseDataset.store self r) = BaseDataset.test_size self
  /\ BaseDataset.random_state (BaseDataset.store self r)
     = BaseDataset.random_state self.
Proof. destruct r as [[[? ?] ?] ?]. cbn. auto. Qed.

Lemma split_data_inr (self : BaseDataset.obj T) X y self' :
  outcome (BaseDataset._split_data A cv_order self X y) = inr self' ->
  exists stratify r,
    train_test_split A cv_order X y (BaseDataset.test_size self)
      (BaseDataset.random_state self) stratify = inr r
    /\ self' = BaseDataset.store self r.
Proof.
  unfold BaseDataset._split_data. intros H.
  apply outcome_bind_inr in H as (test_samples & _ & H).
  apply outcome_bind_inr in H as (_ & _ & H).
  apply outcome_bind_inr in H as (r & Hr & H).
  rewrite report_returns in H. inversion H; subst.
  rewrite outcome_lift in Hr. eauto.
Qed.

Lemma init_inr load path ts rs self :
  outcome (BaseDataset.__init__ A cv_order load path ts rs) = inr self ->
  exists raw_df X y stratify r,
    outcome (load (fresh path ts rs)) = inr raw_df
    /\ outcome (BaseDataset._preprocess A raw_df) = inr (X, y)
    /\ train_test_split A cv_order X y ts rs stratify = inr r
    /\ self = BaseDataset.store (fresh path ts rs) r.
Proof.
  unfold BaseDataset.__init__, BaseDataset._load_and_process. intros H.
  apply outcome_bind_inr in H as (_ & _ & H).
  apply outcome_bind_inr in H as (raw_df & Hload & H).
  apply outcome_bind_inr in H as (_ & _ & H).
  apply outcome_bind_inr in H as ([X y] & Hpre & H).
  apply outcome_bind_inr in H as (self1 & Hsplit & H).
  apply outcome_bind_inr in H as (_ & _ & H).
  cbn in H. inversion H; subst.
  apply split_data_inr in Hsplit as (stratify & r & Hr & ->).
  exists raw_df, X, y, stratify, r. auto.
Qed.

End Construction.

(** ** The factory *)

Section FactoryFacts.
Context {T : Type} (A : arith T).
Variable fs : filesystem T.
Variable cv_order : splitter T.

Lemma keys_dataset_map : keys (dataset_map A fs cv_order) = ["simple_nslkdd"].
Proof. reflexivity. Qed.

Lemma lookup_registered name :
  In name (keys (dataset_map A fs cv_order)) ->
  lookup name (dataset_map A fs cv_order)
  = Some (SimpleNSLKDD.new A fs cv_order).
Proof.
  cbn. intros [<- | []]. reflexivity.
Qed.

Lemma lookup_unregistered name :
  ~ In name (keys (dataset_map A fs cv_order)) ->
  lookup name (dataset_map A fs cv_order) = None.
Proof.
  cbn. intros H. destruct (String.eqb_spec name "simple_nslkdd"); auto.
  exfalso. apply H. auto.
Qed.

End FactoryFacts.

(** C5.  A name that is not registered makes [get_dataset] raise the
    error of the factory ([ValueError]), whose message lists exactly the
    registered names; for a registered name, the loader [get_dataset]
    returns is fully constructed, and the four containers [get_data]
    yields are not [None]. *)
Theorem C5_get_dataset_unknown_or_ready :
  forall {T} (A : arith T) (fs : filesystem T) (cv_order : splitter T)
         (name data_path : string),
    (~ In name (keys (dataset_map A fs cv_order)) ->
     get_dataset A fs cv_order name data_path
     = raise (ValueError
                ("Dataset '" ++ name ++ "' not recognized. Available datasets: "
                 ++ repr_list (keys (dataset_map A fs cv_order)))%string)
     /\ repr_list (keys (dataset_map A fs cv_order)) = "['simple_nslkdd']")
    /\ (In name (keys (dataset_map A fs cv_order)) ->
        forall self,
          outcome (get_dataset A fs cv_order name data_path) = inr self ->
          exists X_train y_train X_test y_test,
            snd (BaseDataset.get_data self)
            = (Some X_train, Some y_train, Some X_test, Some y_test)).
Proof.
  intros T A fs cv_order name data_path. split.
  - intros Hname. unfold get_dataset.
    rewrite (lookup_unregistered A fs cv_order name Hname). split; reflexivity.
  - intros Hname self. unfold get_dataset.
    rewrite (lookup_registered A fs cv_order name Hname).
    unfold SimpleNSLKDD.new. intros H.
    apply init_inr in H as (_ & _ & _ & _ & r & _ & _ & _ & ->).
    destruct r as [[[X_tr X_te] y_tr] y_te].
    exists X_tr, y_tr, X_te, y_te. reflexivity.
Qed.

Lemma C5_get_dataset_witness :
  get_dataset b64 sample_fs in_order "nsl_kdd" "data/raw/simple_nslkdd.csv"
  = raise (ValueError
      "Dataset 'nsl_kdd' not recognized. Available datasets: ['simple_nslkdd']")
  /\ exists self X_train y_train X_test y_test,
       outcome (get_dataset b64 sample_fs in_order "simple_nslkdd"
                  "data/raw/simple_nslkdd.csv") = inr self
       /\ snd (BaseDataset.get_data self)
          = (Some X_train, Some y_train, Some X_test, Some y_test).
Proof.
  split.
  - refine (proj1 (proj1 (C5_get_dataset_unknown_or_ready b64 sample_fs
              in_order "nsl_kdd" "data/raw/simple_nslkdd.csv") _)).
    cbn. intros [H | []]. discriminate H.
  - destruct (outcome (get_dataset b64 sample_fs in_order "simple_nslkdd"
                         "data/raw/simple_nslkdd.csv")) as [e | self] eqn:H.
    + vm_compute in H. discriminate H.
    + exists self.
      destruct (proj2 (C5_get_dataset_unknown_or_ready b64 sample_fs in_order
                  "simple_nslkdd" "data/raw/simple_nslkdd.csv")
                  (or_introl eq_refl) self H)
        as (X_tr & y_tr & X_te & y_te & Hget).
      exists X_tr, y_tr, X_te, y_te. split; [reflexivity | exact Hget].
Defined.

(** C9.  For a registered name, [get_dataset] constructs the loader from
    the data path alone, with the defaults of [__init__]: [test_size] is
    the float 0.2 and [random_state] is 42, and those are the values the
    returned loader holds.  [get_dataset] takes a name and a path and
    nothing else. *)
Theorem C9_get_dataset_uses_defaults :
  forall {T} (A : arith T) (fs : filesystem T) (cv_order : splitter T)
         (name data_path : string),
    In name (keys (dataset_map A fs cv_order)) ->
    get_dataset A fs cv_order name data_path
    = SimpleNSLKDD.new A fs cv_order data_path
        (Binary64.of_ratio 2 10) 42
    /\ forall self,
         outcome (get_dataset A fs cv_order name data_path) = inr self ->
         BaseDataset.data_path self = data_path
         /\ BaseDataset.test_size self = Binary64.of_ratio 2 10
         /\ BaseDataset.random_state self = 42.
Proof.
  intros T A fs cv_order name data_path Hname.
  assert (Hdef : BaseDataset.default_test_size = Binary64.of_ratio 2 10)
    by (vm_compute; reflexivity).
  unfold get_dataset. rewrite (lookup_registered A fs cv_order name Hname).
  unfold BaseDataset.default_random_state. rewrite Hdef. split.
  - reflexivity.
  - intros self H. unfold SimpleNSLKDD.new in H.
    apply init_inr in H as (_ & _ & _ & _ & r & _ & _ & _ & ->).
    destruct (store_frame (fresh data_path (Binary64.of_ratio 2 10) 42) r)
      as (Hp & Ht & Hr).
    rewrite Hp, Ht, Hr. cbn. auto.
Qed.

Lemma C9_get_dataset_witness :
  get_dataset b64 sample_fs in_order "simple_nslkdd" "data/raw/simple_nslkdd.csv"
  = SimpleNSLKDD.new b64 sample_fs in_order "data/raw/simple_nslkdd.csv"
      (Binary64.of_ratio 2 10) 42.
Proof.
  refine (proj1 (C9_get_dataset_uses_defaults b64 sample_fs in_order
            "simple_nslkdd" "data/raw/simple_nslkdd.csv" _)).
  cbn. left. reflexivity.
Defined.

(** C10.  [get_data] returns the tuple
    [(X_train, y_train, X_test, y_test)] of the loader's fields and leaves
    the loader as it was, so any number of calls return the same tuple and
    no field changes. *)
Theorem C10_get_data_is_pure :
  forall {T} (self : BaseDataset.obj T) (n : nat),
    BaseDataset.get_data self
    = (self, (BaseDataset.X_train self, BaseDataset.y_train self,
              BaseDataset.X_test self, BaseDataset.y_test self))
    /\ get_data_calls n self
       = (self, repeat (BaseDataset.X_train self, BaseDataset.y_train self,
                        BaseDataset.X_test self, BaseDataset.y_test self) n).
Proof.
  intros T self n. split; [reflexivity |].
  induction n as [| n IH]; cbn [get_data_calls repeat].
  - reflexivity.
  - unfold BaseDataset.get_data at 1. now rewrite IH.
Qed.

(** ** The raw load *)

Lemma combine_fst {X Y} (l : list X) (l' : list Y) :
  List.length l = List.length l' -> map fst (combine l l') = l.
Proof.
  revert l'. induction l as [| x l IH]; intros [| y l'] H; cbn in *;
    try discriminate; auto.
  f_equal. apply IH. lia.
Qed.

Lemma combine_snd {X Y} (l : list X) (l' : list Y) :
  List.length l = List.length l' -> map snd (combine l l') = l'.
Proof.
  revert l'. induction l as [| x l IH]; intros [| y l'] H; cbn in *;
    try discriminate; auto.
  f_equal. apply IH. lia.
Qed.

(** C7.  For a file of [n + 1] columns, the raw load returns the columns
    of the file under the names [feature_0], ..., [feature_{n-1}] for the
    first [n] and [label] for the last. *)
Theorem C7_load_data_names_columns :
  forall {T} (fs : filesystem T) (self : BaseDataset.obj T)
         (cols : list (series T)) (n : nat),
    fs (BaseDataset.data_path self) = Some cols ->
    List.length cols = S n ->
    exists df,
      SimpleNSLKDD._load_data fs self = ret df
      /\ map snd df = cols
      /\ columns df
         = map (fun i => Name ("feature_" ++ str_nat i)%string) (seq 0 n)
           ++ [Name "label"]
      /\ (forall i, (i < n)%nat ->
            nth_error (columns df) i
            = Some (Name ("feature_" ++ str_nat i)%string))
      /\ nth_error (columns df) n = Some (Name "label").
Proof.
  intros T fs self cols n Hfs Hlen.
  set (names := map (fun i => Name ("feature_" ++ str_nat i)%string) (seq 0 n)
                ++ [Name "label"]).
  assert (Hnames : List.length names = S n).
  { unfold names. rewrite length_app, length_map, length_seq. cbn. lia. }
  exists (combine names cols).
  assert (Hcols : columns (combine names cols) = names).
  { unfold columns. apply combine_fst. congruence. }
  repeat split.
  - unfold SimpleNSLKDD._load_data, read_csv. rewrite Hfs.
    destruct cols as [| c cols]; [discriminate |].
    set (df := combine _ (c :: cols)).
    assert (Hdf : List.length df = S n).
    { unfold df. rewrite length_combine, length_map, length_seq. lia. }
    assert (Hsnd : map snd df = c :: cols).
    { unfold df. apply combine_snd. rewrite length_map, length_seq. reflexivity. }
    unfold columns, set_columns. rewrite length_map, Hdf.
    replace (Z.of_nat (S n) - 1) with (Z.of_nat n) by lia.
    unfold SimpleNSLKDD.column_names. rewrite Nat2Z.id. fold names.
    rewrite Hnames, Nat.eqb_refl, Hsnd. reflexivity.
  - apply combine_snd. congruence.
  - exact Hcols.
  - intros i Hi. rewrite Hcols. unfold names.
    rewrite nth_error_app1 by (rewrite length_map, length_seq; exact Hi).
    rewrite nth_error_map, nth_error_seq.
    apply Nat.ltb_lt in Hi. rewrite Hi. reflexivity.
  - rewrite Hcols. unfold names.
    rewrite nth_error_app2 by (rewrite length_map, length_seq; lia).
    rewrite length_map, length_seq, Nat.sub_diag. reflexivity.
Qed.

Lemma C7_load_data_witness :
  exists df,
    SimpleNSLKDD._load_data sample_fs
      (fresh "data/raw/simple_nslkdd.csv" BaseDataset.default_test_size 42)
    = ret df
    /\ columns df
       = [Name "feature_0"; Name "feature_1"; Name "feature_2";
          Name "feature_3"; Name "label"].
Proof.
  destruct (C7_load_data_names_columns sample_fs
              (fresh "data/raw/simple_nslkdd.csv" BaseDataset.default_test_size 42)
              sample_table 4 eq_refl eq_refl)
    as (df & Hload & _ & Hnames & _).
  exists df. split; [exact Hload | exact Hnames].
Defined.

(** ** Preprocessing: the labels *)

Lemma iloc_last_inr {T} (df : DataFrame T) (s : series T) :
  iloc_last df = inr s -> exists front name, df = front ++ [(name, s)].
Proof.
  unfold iloc_last. destruct (rev df) as [| [name s'] r] eqn:Hrev.
  - discriminate.
  - intros H. inversion H; subst. exists (rev r), name.
    rewrite <- (rev_involutive df), Hrev. reflexivity.
Qed.

(** C8.  The label vector that preprocessing returns is the last column
    of the raw table, value by value in row order: the labels are neither
    scaled nor encoded. *)
Theorem C8_labels_pass_through :
  forall {T} (A : arith T) (df : DataFrame T) (X : matrix T)
         (y : list (cell T)),
    outcome (BaseDataset._preprocess A df) = inr (X, y) ->
    exists front name label,
      df = front ++ [(name, label)]
      /\ y = values label
      /\ forall i, nth_error y i = nth_error (values label) i.
Proof.
  intros T A df X y H. unfold BaseDataset._preprocess in H.
  apply outcome_bind_inr in H as (label & Hlast & H).
  apply outcome_bind_inr in H as (X1 & _ & H).
  apply outcome_bind_inr in H as (X2 & _ & H).
  cbn in H. inversion H; subst.
  rewrite outcome_lift in Hlast.
  apply iloc_last_inr in Hlast as (front & name & ->).
  exists front, name, label. auto.
Qed.

Lemma C8_labels_witness :
  exists X front name,
    outcome (BaseDataset._preprocess exact sample_frame_Q)
    = inr (X, [CInt 0; CInt 1; CInt 1])
    /\ sample_frame_Q = front ++ [(name, IntCol [0; 1; 1])].
Proof.
  destruct (outcome (BaseDataset._preprocess exact sample_frame_Q))
    as [e | [X y]] eqn:H.
  - vm_compute in H. discriminate H.
  - destruct (C8_labels_pass_through exact sample_frame_Q X y H)
      as (front & name & label & Hdf & Hy & _).
    exists X, front, name.
    assert (Hlabel : label = IntCol [0; 1; 1]).
    { unfold sample_frame_Q in Hdf.
      apply (f_equal (@rev _)) in Hdf. rewrite rev_app_distr in Hdf.
      cbn in Hdf. inversion Hdf. reflexivity. }
    subst label. rewrite Hy. split; [reflexivity | exact Hdf].
Defined.

(** ** Determinism *)



(** ** The split decision *)

Lemma bind_ret_l {A B} (a : A) (k : A -> M B) : bind (ret a) k = k a.
Proof. unfold bind, ret. destruct (k a). reflexivity. Qed.

Lemma bind_ext {A B} (m : M A) (k k' : A -> M B) :
  (forall a, k a = k' a) -> bind m k = bind m k'.
Proof.
  intros H. destruct m as [out [e | a]]; cbn; [reflexivity |].
  now rewrite H.
Qed.

Module Binary64Facts.
Import Binary64.

Lemma to_int_floor x : not_negative x -> to_int x = floor x.
Proof.
  destruct x as [s | s | | s m e]; cbn; try reflexivity.
  destruct s; [intros [] | intros _].
  destruct (Z.leb_spec 0 e); [reflexivity |].
  f_equal. cbn [significand cond_Zopp].
  apply Z.quot_div_nonneg; [lia |].
  apply Z.pow_pos_nonneg; lia.
Qed.

Lemma round_aux_sign s m e l :
  match binary_round_aux prec emax s m e l with
  | S754_finite s' _ _ => s' = s
  | _ => True
  end.
Proof.
  unfold binary_round_aux.
  destruct (shr_fexp prec emax m e l) as [mrs' e'].
  destruct (shr_fexp prec emax _ e' loc_Exact) as [mrs'' e''].
  destruct (shr_m mrs''); auto.
  destruct (e'' <=? emax - prec); auto.
Qed.

Lemma of_int_not_negative (n : nat) : not_negative (of_int (Z.of_nat n)).
Proof.
  unfold of_int, binary_normalize.
  destruct (Z.of_nat n) as [| p | p] eqn:E; [exact I | | lia].
  unfold binary_round. destruct (shl_align _ _ _) as [mz ez].
  pose proof (round_aux_sign false (Zpos mz) ez loc_Exact) as H.
  unfold not_negative.
  destruct (binary_round_aux prec emax false (Zpos mz) ez loc_Exact)
    as [| | | s m e]; auto.
  subst s. exact I.
Qed.

Lemma mul_not_negative x y :
  not_negative x -> leb zero y = true -> not_negative (mul x y).
Proof.
  intros Hx Hy.
  assert (Hy' : match y with
                | S754_finite s _ _ | S754_infinity s => s = false
                | S754_nan => False
                | S754_zero _ => True
                end).
  { destruct y as [s | [|] | | [|] m e]; cbn in Hy; auto; discriminate. }
  destruct x as [sx | sx | | sx mx ex]; destruct y as [sy | sy | | sy my ey];
    cbn; auto; try contradiction.
  destruct sx; [contradiction |]. subst sy. cbn [xorb].
  pose proof (round_aux_sign false (Zpos (mx * my)) (ex + ey) loc_Exact) as H.
  fold prec in H.
  destruct (binary_round_aux _ _ false (Zpos (mx * my)) (ex + ey) loc_Exact)
    as [| | | s m e]; auto.
  subst s. exact I.
Qed.

(** [floor] is the floor of the value the float denotes. *)
Lemma floor_spec x z :
  floor x = inr z ->
  (inject_Z z <= to_Q x)%Q /\ (to_Q x < inject_Z (z + 1))%Q.
Proof.
  destruct x as [s | s | | s m e]; cbn [floor to_Q]; try discriminate.
  - intros H. inversion H; subst. split; [apply Qle_refl | reflexivity].
  - intros H. inversion H; subst; clear H.
    destruct (Z.leb_spec 0 e) as [He | He].
    + split; [apply Qle_refl |]. rewrite <- Zlt_Qlt. lia.
    + set (d := 2 ^ (- e)).
      assert (Hd : 0 < d) by (apply Z.pow_pos_nonneg; lia).
      unfold Qle, Qlt. cbn [Qnum Qden inject_Z].
      rewrite Z2Pos.id by exact Hd. rewrite !Z.mul_1_r. split.
      * rewrite Z.mul_comm. apply Z.mul_div_le. exact Hd.
      * rewrite Z.mul_comm. apply Z.mul_succ_div_gt. exact Hd.
Qed.

(** The default [test_size] is the float64 of the literal [0.2]: the
    rounded quotient of 2 by 10, within half a unit in the last place of
    1/5. *)
Example default_test_size_is_0_2 :
  BaseDataset.default_test_size = of_ratio 2 10
  /\ ((1 # 5) - (1 # 2 ^ 56) <= to_Q BaseDataset.default_test_size)%Q
  /\ (to_Q BaseDataset.default_test_size <= (1 # 5) + (1 # 2 ^ 56))%Q.
Proof. repeat split; vm_compute; congruence. Qed.

(** The product is the float64 one: [int(100 * 0.29)] is 28 and
    [int(10 * 0.3)] is 3. *)
Example test_samples_float64 :
  to_int (mul (of_int 100) (of_ratio 29 100)) = inr 28
  /\ to_int (mul (of_int 10) (of_ratio 3 10)) = inr 3
  /\ to_int (mul (of_int 10) BaseDataset.default_test_size) = inr 2.
Proof. repeat split; vm_compute; reflexivity. Qed.

End Binary64Facts.

(** C2.  For a [test_size] that is not negative, [_split_data] is the
    decision of the specification: [test_samples] is the floor of the
    float64 product [num_samples * test_size]; when it is at least the
    number of distinct labels the split is stratified by [y]; otherwise
    the warning that names [test_samples] and the number of classes is
    printed and the split is made without stratification. *)
Theorem C2_split_decision :
  forall {T} (A : arith T) (cv_order : splitter T)
         (self : BaseDataset.obj T) (X : matrix T) (y : list (cell T)),
    Binary64.leb Binary64.zero (BaseDataset.test_size self) = true ->
    BaseDataset._split_data A cv_order self X y
    = split_decision_spec A cv_order self X y.
Proof.
  intros T A cv_order self X y Hts.
  unfold BaseDataset._split_data, split_decision_spec.
  rewrite Binary64Facts.to_int_floor
    by (apply Binary64Facts.mul_not_negative;
        [apply Binary64Facts.of_int_not_negative | exact Hts]).
  apply bind_ext. intros test_samples.
  unfold BaseDataset.stratify_warning.
  destruct (Z.of_nat (List.length (unique A y)) <=? test_samples); cbn [negb].
  - now rewrite bind_ret_l.
  - reflexivity.
Qed.

Lemma C2_split_decision_witness :
  BaseDataset._split_data b64 in_order
    (fresh "data/raw/simple_nslkdd.csv" BaseDataset.default_test_size 42)
    [[Binary64.zero]; [Binary64.one]; [Binary64.one]]
    [CInt 0; CInt 1; CInt 1]
  = split_decision_spec b64 in_order
      (fresh "data/raw/simple_nslkdd.csv" BaseDataset.default_test_size 42)
      [[Binary64.zero]; [Binary64.one]; [Binary64.one]]
      [CInt 0; CInt 1; CInt 1].
Proof.
  apply (C2_split_decision b64 in_order
           (fresh "data/raw/simple_nslkdd.csv" BaseDataset.default_test_size 42)).
  reflexivity.
Defined.

(** The sample table has ten rows and two classes: [test_samples] is 2,
    the split is stratified and nothing is warned about.  Three rows with
    two classes give [test_samples = 0] and the warning. *)
Example sample_split_is_stratified :
  fst (SimpleNSLKDD.new b64 sample_fs in_order "data/raw/simple_nslkdd.csv"
         BaseDataset.default_test_size 42)
  = [ "Loading data from data/raw/simple_nslkdd.csv...";
      "Preprocessing data...";
      "Data split completed.";
      "Train set size: 8";
      "Test set size: 2";
      "Dataset ready." ].
Proof. vm_compute. reflexivity. Qed.

Example small_split_warns :
  fst (BaseDataset._split_data b64 in_order
         (fresh "data/raw/simple_nslkdd.csv" BaseDataset.default_test_size 42)
         [[Binary64.zero]; [Binary64.one]; [Binary64.one]]
         [CInt 0; CInt 1; CInt 1])
  = [ "Warning: Test set size (0) is smaller than number of classes (2). Disabling stratification for this split.";
      "Data split completed.";
      "Train set size: 2";
      "Test set size: 1" ].
Proof. vm_compute. reflexivity. Qed.

(** ** The split: shapes and pairing *)

Section SplitFacts.
Context {T : Type} (A : arith T).
Variable cv_order : splitter T.

Lemma sequence_inr {X Y} (f : X -> exn + Y) (l : list X) (ys : list Y) :
  sequence (map f l) = inr ys -> Forall2 (fun x y => f x = inr y) l ys.
Proof.
  revert ys. induction l as [| x l IH]; intros ys H; cbn in H.
  - inversion H. constructor.
  - destruct (f x) as [e | y] eqn:Hx; [discriminate |].
    destruct (sequence (map f l)) as [e | ys'] eqn:Hl; [discriminate |].
    inversion H; subst. constructor; auto.
Qed.

(** [a[idx]] returns, position by position, the rows that [idx] names. *)
Lemma safe_indexing_inr {X} (a : list X) (idx : list nat) (r : list X) :
  safe_indexing a idx = inr r ->
  Forall2 (fun i x => nth_error a i = Some x) idx r.
Proof.
  unfold safe_indexing. intros H. apply sequence_inr in H.
  induction H as [| i x idx r Hi _ IH]; constructor; auto.
  destruct (nth_error a i); [inversion Hi; reflexivity | discriminate].
Qed.

Lemma firstn_firstn_skipn {X} (a b : nat) (l : list X) :
  (List.length l - b <= a)%nat ->
  firstn b l ++ firstn a (skipn b l) = l.
Proof.
  intros H. rewrite (firstn_all2 (skipn b l)).
  - apply firstn_skipn.
  - rewrite length_skipn. exact H.
Qed.

(** The indices of the two parts are those of the splitter's order, test
    part first, whatever the sizes are. *)
Lemma parts_of_order (n_samples : nat) (n_test : Z) (order : list nat) :
  List.length order = n_samples ->
  firstn (Z.to_nat n_test) order
  ++ firstn (Z.to_nat (Z.of_nat n_samples - n_test))
       (skipn (Z.to_nat n_test) order)
  = order.
Proof.
  intros H. apply firstn_firstn_skipn. lia.
Qed.

Lemma train_test_split_inr X y ts rs stratify X_tr X_te y_tr y_te :
  splitter_ok cv_order ->
  train_test_split A cv_order X y ts rs stratify
  = inr (X_tr, X_te, y_tr, y_te) ->
  List.length X = List.length y
  /\ exists train test,
       Permutation (test ++ train) (seq 0 (List.length X))
       /\ Forall2 (fun i row => nth_error X i = Some row) train X_tr
       /\ Forall2 (fun i c => nth_error y i = Some c) train y_tr
       /\ Forall2 (fun i row => nth_error X i = Some row) test X_te
       /\ Forall2 (fun i c => nth_error y i = Some c) test y_te.
Proof.
  intros Hcv. unfold train_test_split.
  destruct (Nat.eqb_spec (List.length X) (List.length y)) as [Hlen | Hlen];
    cbn [negb]; [| discriminate].
  destruct (_ || _); [discriminate |].
  destruct (Binary64.ceil _) as [e | n_test]; [discriminate |].
  destruct (_ =? 0); [discriminate |].
  match goal with
  | |- match ?c with inl _ => _ | inr _ => _ end = _ -> _ =>
      destruct c as [e | _]; [discriminate |]
  end.
  set (order := cv_order rs stratify (List.length X) (Z.to_nat n_test)).
  set (test := firstn (Z.to_nat n_test) order).
  set (train := firstn _ (skipn (Z.to_nat n_test) order)).
  destruct (safe_indexing X train) as [e | X_tr'] eqn:H1; [discriminate |].
  destruct (safe_indexing X test) as [e | X_te'] eqn:H2; [discriminate |].
  destruct (safe_indexing y train) as [e | y_tr'] eqn:H3; [discriminate |].
  destruct (safe_indexing y test) as [e | y_te'] eqn:H4; [discriminate |].
  intros H. inversion H; subst. split; [exact Hlen |].
  exists train, test. repeat split; try (apply safe_indexing_inr; assumption).
  unfold test, train. rewrite parts_of_order.
  - apply Hcv.
  - unfold order. rewrite (Permutation_length (Hcv _ _ _ _)).
    apply length_seq.
Qed.

End SplitFacts.

(** C3.  A loader whose construction completed holds a split of the
    [(X, y)] that preprocessing returned: [X] and [y] have the same
    number of rows, the two parts of [X] have together as many rows as
    [X], each part of [X] has as many rows as the part of [y] beside it,
    every row index goes to exactly one part, and the part of [X] and the
    part of [y] are taken at the same indices, so each row of [X] stays
    with its label. *)
Theorem C3_split_shapes_and_pairing :
  forall {T} (A : arith T) (cv_order : splitter T)
         (load : BaseDataset.obj T -> M (DataFrame T))
         (data_path : string) (test_size : Binary64.float) (random_state : Z)
         (self : BaseDataset.obj T),
    splitter_ok cv_order ->
    outcome (BaseDataset.__init__ A cv_order load data_path test_size
               random_state) = inr self ->
    exists raw_df X y X_train y_train X_test y_test train test,
      outcome (load (fresh data_path test_size random_state)) = inr raw_df
      /\ outcome (BaseDataset._preprocess A raw_df) = inr (X, y)
      /\ snd (BaseDataset.get_data self)
         = (Some X_train, Some y_train, Some X_test, Some y_test)
      /\ (List.length X_train + List.length X_test = List.length X)%nat
      /\ List.length X = List.length y
      /\ List.length X_train = List.length y_train
      /\ List.length X_test = List.length y_test
      /\ Permutation (train ++ test) (seq 0 (List.length X))
      /\ Forall2 (fun i row => nth_error X i = Some row) train X_train
      /\ Forall2 (fun i c => nth_error y i = Some c) train y_train
      /\ Forall2 (fun i row => nth_error X i = Some row) test X_test
      /\ Forall2 (fun i c => nth_error y i = Some c) test y_test.
Proof.
  intros T A cv_order load path ts rs self Hcv H.
  apply init_inr in H as (raw_df & X & y & stratify & r & Hload & Hpre & Hr & ->).
  destruct r as [[[X_tr X_te] y_tr] y_te].
  destruct (train_test_split_inr A cv_order _ _ _ _ _ _ _ _ _ Hcv Hr)
    as (Hlen & train & test & Hperm & HXtr & Hytr & HXte & Hyte).
  exists raw_df, X, y, X_tr, y_tr, X_te, y_te, train, test.
  pose proof (Forall2_length HXtr) as L1.
  pose proof (Forall2_length Hytr) as L2.
  pose proof (Forall2_length HXte) as L3.
  pose proof (Forall2_length Hyte) as L4.
  pose proof (Permutation_length Hperm) as L5.
  rewrite length_app, length_seq in L5.
  repeat split; auto; try lia.
  eapply Permutation_trans; [apply Permutation_app_comm | exact Hperm].
Qed.

Lemma in_order_ok {T} : splitter_ok (@in_order T).
Proof. intros seed stratify n n_test. apply Permutation_refl. Qed.

Lemma C3_split_witness :
  exists self X_train y_train X_test y_test,
    outcome (SimpleNSLKDD.new b64 sample_fs in_order "data/raw/simple_nslkdd.csv"
               BaseDataset.default_test_size 42) = inr self
    /\ snd (BaseDataset.get_data self)
       = (Some X_train, Some y_train, Some X_test, Some y_test)
    /\ List.length X_train = List.length y_train
    /\ List.length X_test = List.length y_test.
Proof.
  destruct (outcome (SimpleNSLKDD.new b64 sample_fs in_order
                       "data/raw/simple_nslkdd.csv"
                       BaseDataset.default_test_size 42))
    as [e | self] eqn:H.
  - vm_compute in H. discriminate H.
  - destruct (C3_split_shapes_and_pairing b64 in_order
                (SimpleNSLKDD._load_data sample_fs)
                "data/raw/simple_nslkdd.csv" BaseDataset.default_test_size 42
                self in_order_ok H)
      as (raw_df & X & y & X_tr & y_tr & X_te & y_te & train & test
          & _ & _ & Hget & _ & _ & L1 & L2 & _).
    exists self, X_tr, y_tr, X_te, y_te. auto.
Defined.

(** ** Scaling *)

Section ExactScaling.
Local Open Scope Q_scope.









End ExactScaling.






(** * Further properties of the pipeline *)

(** ** Files that cannot be loaded *)

(** X1.  [_load_data] absorbs [FileNotFoundError] and nothing else: for a
    file that exists and is empty, the [EmptyDataError] of [read_csv]
    leaves the construction, and [get_dataset], after the first line of
    output, and no empty table is produced. *)
Theorem X1_empty_file_raises_EmptyDataError :
  forall {T} (A : arith T) (fs : filesystem T) (cv_order : splitter T)
         (path : string) (test_size : Binary64.float) (random_state : Z),
    fs path = Some [] ->
    SimpleNSLKDD.new A fs cv_order path test_size random_state
    = ([("Loading data from " ++ path ++ "...")%string],
       inl (EmptyDataError "No columns to parse from file"))
    /\ get_dataset A fs cv_order "simple_nslkdd" path
       = ([("Loading data from " ++ path ++ "...")%string],
          inl (EmptyDataError "No columns to parse from file")).
Proof.
  intros T A fs cv_order path ts rs Hfs.
  assert (Hnew : forall ts' rs',
             SimpleNSLKDD.new A fs cv_order path ts' rs'
             = ([("Loading data from " ++ path ++ "...")%string],
                inl (EmptyDataError "No columns to parse from file"))).
  { intros ts' rs'.
    unfold SimpleNSLKDD.new, BaseDataset.__init__,
      BaseDataset._load_and_process, SimpleNSLKDD._load_data, read_csv.
    cbn [BaseDataset.data_path]. rewrite Hfs. reflexivity. }
  split; [apply Hnew |].
  unfold get_dataset. cbn [lookup dataset_map]. apply Hnew.
Qed.

Lemma X1_empty_file_witness :
  get_dataset b64 empty_file_fs in_order "simple_nslkdd"
    "data/raw/simple_nslkdd.csv"
  = (["Loading data from data/raw/simple_nslkdd.csv..."],
     inl (EmptyDataError "No columns to parse from file")).
Proof.
  exact (proj2 (X1_empty_file_raises_EmptyDataError b64 empty_file_fs in_order
                  "data/raw/simple_nslkdd.csv" BaseDataset.default_test_size
                  42 eq_refl)).
Defined.

(** X2.  A table that has a label column and no feature column cannot be
    preprocessed: [_preprocess] raises [ValueError], and so does the
    construction over a file of one column. *)
Theorem X2_label_only_table_raises_ValueError :
  forall {T} (A : arith T) (fs : filesystem T) (cv_order : splitter T)
         (path : string) (name : colname) (label : series T),
    (exists msg,
       outcome (BaseDataset._preprocess A [(name, label)])
       = inl (ValueError msg))
    /\ (fs path = Some [label] ->
        exists msg,
          outcome (get_dataset A fs cv_order "simple_nslkdd" path)
          = inl (ValueError msg)).
Proof.
  intros T A fs cv_order path name label. split.
  - eexists. reflexivity.
  - intros Hfs. eexists.
    change (get_dataset A fs cv_order "simple_nslkdd" path)
      with (SimpleNSLKDD.new A fs cv_order path
              BaseDataset.default_test_size BaseDataset.default_random_state).
    unfold SimpleNSLKDD.new, BaseDataset.__init__,
      BaseDataset._load_and_process, SimpleNSLKDD._load_data, read_csv.
    cbn [BaseDataset.data_path]. rewrite Hfs. reflexivity.
Qed.

Lemma X2_label_only_witness :
  exists msg,
    outcome (get_dataset b64 label_only_fs in_order "simple_nslkdd"
               "data/raw/simple_nslkdd.csv")
    = inl (ValueError msg).
Proof.
  exact (proj2 (X2_label_only_table_raises_ValueError b64 label_only_fs
                  in_order "data/raw/simple_nslkdd.csv" (Name "label")
                  (IntCol [0; 1; 0])) eq_refl).
Defined.

(** X3.  [get_dataset] returns a loader only for the registered name and
    a file that exists and has at least two columns, a feature and the
    label. *)
Theorem X3_loader_needs_features_and_label :
  forall {T} (A : arith T) (fs : filesystem T) (cv_order : splitter T)
         (name path : string) (self : BaseDataset.obj T),
    outcome (get_dataset A fs cv_order name path) = inr self ->
    name = "simple_nslkdd"
    /\ exists cols, fs path = Some cols /\ (2 <= List.length cols)%nat.
Proof.
  intros T A fs cv_order name path self H.
  unfold get_dataset in H. cbn [lookup dataset_map] in H.
  destruct (String.eqb_spec name "simple_nslkdd") as [-> | Hname];
    [| discriminate H].
  split; [reflexivity |].
  change (outcome (SimpleNSLKDD.new A fs cv_order path
                     BaseDataset.default_test_size
                     BaseDataset.default_random_state) = inr self) in H.
  unfold SimpleNSLKDD.new, BaseDataset.__init__,
    BaseDataset._load_and_process, SimpleNSLKDD._load_data, read_csv in H.
  cbn [BaseDataset.data_path] in H.
  destruct (fs path) as [[| c [| c' cols]] |] eqn:Hfs;
    try (cbn in H; discriminate H).
  exists (c :: c' :: cols). split; [reflexivity | cbn; lia].
Qed.

Lemma X3_loader_witness :
  exists cols,
    sample_fs "data/raw/simple_nslkdd.csv" = Some cols
    /\ (2 <= List.length cols)%nat.
Proof.
  destruct (outcome (get_dataset b64 sample_fs in_order "simple_nslkdd"
                       "data/raw/simple_nslkdd.csv")) as [e | self] eqn:H.
  - vm_compute in H. discriminate H.
  - exact (proj2 (X3_loader_needs_features_and_label b64 sample_fs in_order
                    "simple_nslkdd" "data/raw/simple_nslkdd.csv" self H)).
Defined.

(** ** The exceptions of the pipeline *)

Lemma raises_only_bind {X Y} (P : exn -> Prop) (m : M X) (k : X -> M Y) :
  raises_only P m -> (forall a, raises_only P (k a)) ->
  raises_only P (bind m k).
Proof.
  intros Hm Hk e. destruct m as [out [e' | a]]; cbn.
  - intros H. inversion H; subst. apply Hm. reflexivity.
  - specialize (Hk a). destruct (k a) as [out' r]. cbn. apply Hk.
Qed.

Lemma raises_only_print (P : exn -> Prop) line : raises_only P (print line).
Proof. intros e H. discriminate H. Qed.

Lemma raises_only_ret {X} (P : exn -> Prop) (a : X) : raises_only P (ret a).
Proof. intros e H. discriminate H. Qed.

Lemma raises_only_lift {X} (P : exn -> Prop) (r : exn + X) :
  (forall e, r = inl e -> P e) -> raises_only P (lift r).
Proof. intros H e He. apply H. exact He. Qed.

Lemma sequence_inl {X} (l : list (exn + X)) e :
  sequence l = inl e -> In (inl e) l.
Proof.
  induction l as [| [e' | x] l IH]; cbn; intros H.
  - discriminate H.
  - inversion H. auto.
  - destruct (sequence l); [| discriminate H]. inversion H; subst. auto.
Qed.

Section ExceptionKinds.
Context {T : Type} (A : arith T).
Variable fs : filesystem T.
Variable cv_order : splitter T.

Lemma safe_indexing_raises {X} (a : list X) idx e :
  safe_indexing a idx = inl e -> not_FileNotFoundError e.
Proof.
  unfold safe_indexing. intros H. apply sequence_inl in H.
  apply in_map_iff in H as (i & Hi & _).
  destruct (nth_error a i); inversion Hi. exact I.
Qed.

Lemma fit_transform_raises X e :
  MinMaxScaler_fit_transform A X = inl e -> not_FileNotFoundError e.
Proof.
  unfold MinMaxScaler_fit_transform.
  destruct (sequence (map (to_float A) X)) as [e' | cols] eqn:Hseq.
  - intros H. inversion H; subst. apply sequence_inl in Hseq.
    apply in_map_iff in Hseq as (c & Hc & _).
    unfold to_float in Hc. destruct (snd c); inversion Hc. exact I.
  - destruct (existsb _ cols); [intros H; inversion H; exact I |].
    destruct (nrows X =? 0)%nat; [intros H; inversion H; exact I |].
    destruct cols; intros H; inversion H. exact I.
Qed.

Lemma preprocess_raises df :
  raises_only not_FileNotFoundError (BaseDataset._preprocess A df).
Proof.
  unfold BaseDataset._preprocess.
  apply raises_only_bind.
  { apply raises_only_lift. unfold iloc_last.
    destruct (rev df) as [| [? ?] ?]; intros e H; inversion H. exact I. }
  intros y. apply raises_only_bind.
  { apply raises_only_lift. unfold get_dummies.
    destruct (_ ++ _); intros e H; inversion H. exact I. }
  intros X. apply raises_only_bind.
  { apply raises_only_lift. apply fit_transform_raises. }
  intros X'. apply raises_only_ret.
Qed.

Lemma float_to_int_raises x e :
  Binary64.to_int x = inl e -> not_FileNotFoundError e.
Proof. destruct x; cbn; intros H; inversion H; exact I. Qed.

Lemma float_ceil_raises x e :
  Binary64.ceil x = inl e -> not_FileNotFoundError e.
Proof. destruct x; cbn; intros H; inversion H; exact I. Qed.

Lemma train_test_split_raises X y ts rs stratify e :
  train_test_split A cv_order X y ts rs stratify = inl e ->
  not_FileNotFoundError e.
Proof.
  unfold train_test_split.
  destruct (negb _); [intros H; inversion H; exact I |].
  destruct (_ || _); [intros H; inversion H; exact I |].
  destruct (Binary64.ceil _) as [e' | n_test] eqn:Hceil.
  { intros H. inversion H; subst. eapply float_ceil_raises; eauto. }
  destruct (_ =? 0); [intros H; inversion H; exact I |].
  match goal with
  | |- match ?c with inl _ => _ | inr _ => _ end = _ -> _ =>
      assert (Hc : forall e', c = inl e' -> not_FileNotFoundError e');
      [| destruct c as [e' | u];
         [intros H; inversion H; subst; apply Hc; reflexivity |]]
  end.
  { destruct stratify as [s |]; [| discriminate].
    destruct (_ <? 2)%nat; [intros e' H; inversion H; exact I |].
    destruct (_ <? _); [intros e' H; inversion H; exact I |].
    destruct (_ <? _); intros e' H; inversion H. exact I. }
  set (order := cv_order rs stratify (List.length X) (Z.to_nat n_test)).
  set (test := firstn (Z.to_nat n_test) order).
  set (train := firstn _ (skipn (Z.to_nat n_test) order)).
  destruct (safe_indexing X train) as [e1 | ?] eqn:Hi1;
    destruct (safe_indexing X test) as [e2 | ?] eqn:Hi2;
    destruct (safe_indexing y train) as [e3 | ?] eqn:Hi3;
    destruct (safe_indexing y test) as [e4 | ?] eqn:Hi4;
    intros H; inversion H; subst;
    eapply safe_indexing_raises; eauto.
Qed.

Lemma split_data_raises (self : BaseDataset.obj T) X y :
  raises_only not_FileNotFoundError
    (BaseDataset._split_data A cv_order self X y).
Proof.
  unfold BaseDataset._split_data.
  apply raises_only_bind.
  { apply raises_only_lift. apply float_to_int_raises. }
  intros test_samples. apply raises_only_bind.
  { destruct (negb _); [apply raises_only_print | apply raises_only_ret]. }
  intros _. apply raises_only_bind.
  { apply raises_only_lift. apply train_test_split_raises. }
  intros r e H. rewrite report_returns in H. discriminate H.
Qed.

Lemma load_data_raises (self : BaseDataset.obj T) :
  raises_only not_FileNotFoundError (SimpleNSLKDD._load_data fs self).
Proof.
  unfold SimpleNSLKDD._load_data, read_csv.
  destruct (fs (BaseDataset.data_path self)) as [[| c cols] |].
  - intros e H. inversion H. exact I.
  - apply raises_only_lift. unfold set_columns.
    destruct (_ =? _)%nat; intros e H; inversion H. exact I.
  - intros e H. discriminate H.
Qed.

End ExceptionKinds.

(** X4.  [get_dataset] never raises [FileNotFoundError], whatever the name,
    the path and the file system: a missing file is absorbed by
    [_load_data], so a caller cannot recognise it by that exception. *)
Theorem X4_get_dataset_never_raises_FileNotFoundError :
  forall {T} (A : arith T) (fs : filesystem T) (cv_order : splitter T)
         (name path msg : string),
    outcome (get_dataset A fs cv_order name path)
    <> inl (FileNotFoundError msg).
Proof.
  intros T A fs cv_order name path msg H.
  assert (R : raises_only not_FileNotFoundError
                (get_dataset A fs cv_order name path)).
  { unfold get_dataset. destruct (lookup name _) as [cls |] eqn:Hl.
    - cbn [lookup dataset_map] in Hl.
      destruct (name =? "simple_nslkdd")%string; [| discriminate Hl].
      inversion Hl; subst cls.
      unfold SimpleNSLKDD.new, BaseDataset.__init__,
        BaseDataset._load_and_process.
      apply raises_only_bind; [apply raises_only_print |]. intros _.
      apply raises_only_bind; [apply load_data_raises |]. intros raw_df.
      apply raises_only_bind; [apply raises_only_print |]. intros _.
      apply raises_only_bind; [apply preprocess_raises |]. intros [X y].
      apply raises_only_bind; [apply split_data_raises |]. intros self.
      apply raises_only_bind; [apply raises_only_print |]. intros _.
      apply raises_only_ret.
    - intros e He. inversion He. exact I. }
  exact (R _ H).
Qed.

(** ** The entry point *)

Section MainFacts.
Context {T : Type} (A : arith T).
Variable fs : filesystem T.
Variable cv_order : splitter T.
Variable str_shape : matrix T -> string.
Variable str_array : matrix T -> string.

(** The construction [main] asks for, by what the file system holds at
    the path. *)
Lemma main_construction :
  get_dataset A fs cv_order "simple_nslkdd" "data/raw/simple_nslkdd.csv"
  = BaseDataset._load_and_process A cv_order (SimpleNSLKDD._load_data fs)
      (fresh "data/raw/simple_nslkdd.csv" BaseDataset.default_test_size
         BaseDataset.default_random_state).
Proof. reflexivity. Qed.


End MainFacts.

(** X5.  When the data file is missing, [main] does not reach its error
    report: the [IndexError] of the construction is not among the
    exceptions its handler takes and leaves [main], after the two lines of
    the header and the four of the construction. *)
Theorem X5_main_missing_file_IndexError_escapes :
  forall {T} (A : arith T) (fs : filesystem T) (cv_order : splitter T)
         (str_shape str_array : matrix T -> string),
    fs "data/raw/simple_nslkdd.csv" = None ->
    main A fs cv_order str_shape str_array
    = (main_header ++ missing_file_output "data/raw/simple_nslkdd.csv",
       inl (Uncaught (IndexError "single positional indexer is out-of-bounds"))).
Proof.
  intros T A fs cv_order str_shape str_array Hfs.
  unfold main. rewrite main_construction.
  unfold BaseDataset._load_and_process, SimpleNSLKDD._load_data, read_csv.
  cbn [BaseDataset.data_path fresh]. rewrite Hfs. reflexivity.
Qed.

Lemma X5_main_missing_file_witness :
  snd (main b64 (fun _ => None) in_order (fun _ => "") (fun _ => ""))
  = inl (Uncaught (IndexError "single positional indexer is out-of-bounds")).
Proof.
  rewrite (X5_main_missing_file_IndexError_escapes b64 (fun _ => None)
             in_order (fun _ => "") (fun _ => "") eq_refl).
  reflexivity.
Defined.


(** X7.  An empty data file and a data file with a label column only are
    reported by [main]: the error banner and the message of the exception
    are printed after the output of the construction, and [main]
    returns. *)
Theorem X7_main_reports_unusable_files :
  forall {T} (A : arith T) (fs : filesystem T) (cv_order : splitter T)
         (str_shape str_array : matrix T -> string),
    (fs "data/raw/simple_nslkdd.csv" = Some [] ->
     main A fs cv_order str_shape str_array
     = (main_header
        ++ [ "Loading data from data/raw/simple_nslkdd.csv...";
             error_banner;
             "No columns to parse from file" ],
        inr tt))
    /\ (forall label,
          fs "data/raw/simple_nslkdd.csv" = Some [label] ->
          main A fs cv_order str_shape str_array
          = (main_header
             ++ [ "Loading data from data/raw/simple_nslkdd.csv...";
                  "Preprocessing data...";
                  error_banner;
                  "No objects to concatenate" ],
             inr tt)).
Proof.
  intros T A fs cv_order str_shape str_array. split.
  - intros Hfs. unfold main. rewrite main_construction.
    unfold BaseDataset._load_and_process, SimpleNSLKDD._load_data, read_csv.
    cbn [BaseDataset.data_path fresh]. rewrite Hfs. reflexivity.
  - intros label Hfs. unfold main. rewrite main_construction.
    unfold BaseDataset._load_and_process, SimpleNSLKDD._load_data, read_csv.
    cbn [BaseDataset.data_path fresh]. rewrite Hfs. reflexivity.
Qed.

Lemma X7_main_reports_witness :
  snd (main b64 empty_file_fs in_order (fun _ => "") (fun _ => "")) = inr tt
  /\ snd (main b64 label_only_fs in_order (fun _ => "") (fun _ => "")) = inr tt.
Proof.
  split.
  - rewrite (proj1 (X7_main_reports_unusable_files b64 empty_file_fs in_order
                      (fun _ => "") (fun _ => "")) eq_refl).
    reflexivity.
  - rewrite (proj2 (X7_main_reports_unusable_files b64 label_only_fs in_order
                      (fun _ => "") (fun _ => "")) (IntCol [0; 1; 0]) eq_refl).
    reflexivity.
Defined.

(** ** The split: what it accepts *)

Module SplitArithmetic.
Import Binary64.

Lemma compare_antisym x y :
  SFcompare y x = option_map CompOpp (SFcompare x y).
Proof.
  destruct x as [sx | sx | | sx mx ex], y as [sy | sy | | sy my ey];
    try destruct sx; try destruct sy; cbn; try reflexivity.
  - rewrite (Z.compare_antisym ex ey). destruct (ex ?= ey); cbn; try reflexivity.
    rewrite CompOpp_involutive, Pos.compare_cont_antisym. reflexivity.
  - rewrite (Z.compare_antisym ex ey). destruct (ex ?= ey); cbn; try reflexivity.
    rewrite Pos.compare_cont_antisym. reflexivity.
Qed.

(** For two numbers, "not [x <= y]" is [y < x]. *)
Lemma not_leb_ltb x y :
  leb x y = false -> isnan x = false -> isnan y = false -> ltb y x = true.
Proof.
  unfold leb, ltb, SFleb, SFltb. rewrite (compare_antisym x y).
  destruct (SFcompare x y) as [[| |] |] eqn:E; cbn; try discriminate; auto.
  destruct x, y; try destruct s; try destruct s0; cbn in *; discriminate.
Qed.

Lemma mul_comm x y : mul x y = mul y x.
Proof.
  destruct x as [sx | sx | | sx mx ex], y as [sy | sy | | sy my ey]; cbn;
    try rewrite (xorb_comm sx sy); try reflexivity.
  now rewrite Pos.mul_comm, Z.add_comm.
Qed.

Lemma to_int_le_ceil x t c : to_int x = inr t -> ceil x = inr c -> t <= c.
Proof.
  destruct x as [s | s | | s m e]; cbn; try discriminate.
  - intros H1 H2. inversion H1; inversion H2; lia.
  - intros H1 H2. inversion H1; inversion H2; subst; clear H1 H2.
    destruct (Z.leb_spec 0 e); [lia |].
    assert (Hd : 0 < 2 ^ (- e)) by (apply Z.pow_pos_nonneg; lia).
    destruct s; cbn [significand cond_Zopp].
    + rewrite Z.opp_involutive.
      change (Z.neg m) with (- Z.pos m). rewrite Z.quot_opp_l by lia.
      rewrite Z.quot_div_nonneg by lia. lia.
    + rewrite Z.quot_div_nonneg by lia.
      pose proof (Z.mul_div_le (Z.pos m) _ Hd).
      pose proof (Z.mul_div_le (- Z.pos m) _ Hd).
      nia.
Qed.

Lemma to_int_ceil_defined x t : to_int x = inr t -> exists c, ceil x = inr c.
Proof. destruct x; cbn; try discriminate; eauto. Qed.

Lemma ceil_not_nan x c : ceil x = inr c -> isnan x = false.
Proof. destruct x; cbn; try discriminate; auto. Qed.

Lemma mul_nan_l y : mul S754_nan y = S754_nan.
Proof. destruct y; reflexivity. Qed.

End SplitArithmetic.

Section SplitAcceptance.
Context {T : Type} (A : arith T).
Variable cv_order : splitter T.

(** A split that is made was asked for a fraction strictly between 0 and
    1. *)
Lemma train_test_split_fraction X y ts rs stratify r :
  train_test_split A cv_order X y ts rs stratify = inr r ->
  Binary64.ltb Binary64.zero ts = true /\ Binary64.ltb ts Binary64.one = true.
Proof.
  unfold train_test_split.
  destruct (negb _); [discriminate |].
  destruct (Binary64.leb ts Binary64.zero) eqn:H0; [discriminate |].
  destruct (Binary64.leb Binary64.one ts) eqn:H1; [discriminate |].
  cbn [orb].
  destruct (Binary64.ceil _) as [e | n_test] eqn:Hceil; [discriminate |].
  intros _.
  assert (Hnan : Binary64.isnan ts = false).
  { destruct ts; try reflexivity.
    rewrite SplitArithmetic.mul_nan_l in Hceil. discriminate Hceil. }
  split; apply SplitArithmetic.not_leb_ltb; auto.
Qed.

(** With stratification asked for, a class of one member is refused. *)
Lemma train_test_split_lonely_class X y ts rs t :
  Binary64.to_int (Binary64.mul (Binary64.of_int (Z.of_nat (List.length y))) ts)
  = inr t ->
  (min_class_count A y < 2)%nat ->
  exists msg,
    train_test_split A cv_order X y ts rs (Some y) = inl (ValueError msg).
Proof.
  intros Ht Hmin. unfold train_test_split.
  destruct (Nat.eqb_spec (List.length X) (List.length y)) as [Hlen | Hlen];
    cbn [negb]; [| eauto].
  destruct (_ || _); [eauto |].
  rewrite Hlen, SplitArithmetic.mul_comm.
  destruct (SplitArithmetic.to_int_ceil_defined _ _ Ht) as (c & ->).
  destruct (_ =? 0); [eauto |].
  apply Nat.ltb_lt in Hmin. rewrite Hmin. eauto.
Qed.

End SplitAcceptance.

(** X8.  A construction completes only for a [test_size] strictly between
    0 and 1: with a float [test_size] that is 0 or less, 1 or more, or
    NaN, no loader is returned, whatever the data. *)
Theorem X8_construction_needs_fraction :
  forall {T} (A : arith T) (cv_order : splitter T)
         (load : BaseDataset.obj T -> M (DataFrame T))
         (data_path : string) (test_size : Binary64.float) (random_state : Z)
         (self : BaseDataset.obj T),
    outcome (BaseDataset.__init__ A cv_order load data_path test_size
               random_state) = inr self ->
    Binary64.ltb Binary64.zero test_size = true
    /\ Binary64.ltb test_size Binary64.one = true.
Proof.
  intros T A cv_order load path ts rs self H.
  apply init_inr in H as (_ & X & y & stratify & r & _ & _ & Hr & _).
  eapply train_test_split_fraction; eauto.
Qed.

Lemma X8_construction_witness :
  Binary64.ltb Binary64.zero BaseDataset.default_test_size = true
  /\ Binary64.ltb BaseDataset.default_test_size Binary64.one = true.
Proof.
  destruct (outcome (SimpleNSLKDD.new b64 sample_fs in_order
                       "data/raw/simple_nslkdd.csv"
                       BaseDataset.default_test_size 42))
    as [e | self] eqn:H.
  - vm_compute in H. discriminate H.
  - exact (X8_construction_needs_fraction b64 in_order
             (SimpleNSLKDD._load_data sample_fs)
             "data/raw/simple_nslkdd.csv" BaseDataset.default_test_size 42
             self H).
Defined.

(** X9.  The number [_split_data] compares with the number of classes,
    [int(num_samples * test_size)], is never above the number of test rows
    the splitter allots, [ceil(test_size * num_samples)]: when the code
    asks for stratification, the test part has a row for every class. *)
Theorem X9_test_samples_below_n_test :
  forall (num_samples : Z) (test_size : Binary64.float) (test_samples n_test : Z),
    Binary64.to_int (Binary64.mul (Binary64.of_int num_samples) test_size)
    = inr test_samples ->
    Binary64.ceil (Binary64.mul test_size (Binary64.of_int num_samples))
    = inr n_test ->
    test_samples <= n_test.
Proof.
  intros n ts t c Ht Hc. rewrite SplitArithmetic.mul_comm in Hc.
  eapply SplitArithmetic.to_int_le_ceil; eauto.
Qed.

Lemma X9_test_samples_witness : 2 <= 3.
Proof.
  apply (X9_test_samples_below_n_test 11 BaseDataset.default_test_size 2 3);
    vm_compute; reflexivity.
Defined.

(** X10.  The test of [_split_data] does not make stratification
    possible: when [test_samples >= num_classes] and a class has a single
    member, the stratified split is asked for and [_split_data] raises
    [ValueError]. *)
Theorem X10_lonely_class_raises_ValueError :
  forall {T} (A : arith T) (cv_order : splitter T)
         (self : BaseDataset.obj T) (X : matrix T) (y : list (cell T))
         (test_samples : Z),
    Binary64.to_int
      (Binary64.mul (Binary64.of_int (Z.of_nat (List.length y)))
                    (BaseDataset.test_size self)) = inr test_samples ->
    Z.of_nat (List.length (unique A y)) <= test_samples ->
    (min_class_count A y < 2)%nat ->
    exists msg,
      outcome (BaseDataset._split_data A cv_order self X y)
      = inl (ValueError msg).
Proof.
  intros T A cv_order self X y t Ht Hk Hmin.
  destruct (train_test_split_lonely_class A cv_order X y
              (BaseDataset.test_size self) (BaseDataset.random_state self)
              t Ht Hmin) as (msg & Hsplit).
  exists msg. unfold BaseDataset._split_data. rewrite Ht.
  change (lift (inr t)) with (@ret Z t). rewrite bind_ret_l.
  apply Z.leb_le in Hk. rewrite Hk. cbn [negb]. rewrite bind_ret_l.
  rewrite Hsplit. reflexivity.
Qed.

Lemma X10_lonely_class_witness :
  exists msg,
    outcome (BaseDataset._split_data b64 in_order
               (fresh "data/raw/simple_nslkdd.csv"
                  BaseDataset.default_test_size 42)
               ten_rows lonely_labels)
    = inl (ValueError msg).
Proof.
  apply (X10_lonely_class_raises_ValueError b64 in_order
           (fresh "data/raw/simple_nslkdd.csv" BaseDataset.default_test_size 42)
           ten_rows lonely_labels 2).
  - vm_compute. reflexivity.
  - vm_compute. discriminate.
  - vm_compute. lia.
Defined.

(** X11.  Data without rows cannot be split: for every [test_size],
    [_split_data] on an empty [X] and an empty [y] raises [ValueError] and
    stores nothing. *)
Theorem X11_empty_data_raises_ValueError :
  forall {T} (A : arith T) (cv_order : splitter T) (self : BaseDataset.obj T),
    exists msg,
      outcome (BaseDataset._split_data A cv_order self [] [])
      = inl (ValueError msg).
Proof.
  intros T A cv_order [path ts rs ? ? ? ?].
  unfold BaseDataset._split_data, train_test_split.
  cbn [BaseDataset.test_size BaseDataset.random_state List.length].
  destruct ts as [s | s | | s m e].
  - cbn. eauto.
  - cbn. eauto.
  - cbn. eauto.
  - change (Binary64.to_int
              (Binary64.mul (Binary64.of_int (Z.of_nat 0)) (S754_finite s m e)))
      with (@inr exn Z 0).
    change (lift (inr 0)) with (@ret Z 0). rewrite bind_ret_l.
    cbn [unique unique_from List.length Z.of_nat Z.leb Z.compare negb].
    rewrite bind_ret_l. cbn [Nat.eqb negb].
    destruct (_ || _); [cbn; eauto |].
    cbn. eauto.
Qed.

(** ** The split: nothing lost, nothing added *)

Lemma nth_error_combine {X Y} (l : list X) (l' : list Y) i a b :
  nth_error l i = Some a -> nth_error l' i = Some b ->
  nth_error (combine l l') i = Some (a, b).
Proof.
  revert l' i. induction l as [| x l IH]; intros [| y l'] [| i]; cbn;
    try discriminate; auto.
  intros H1 H2. inversion H1; inversion H2. reflexivity.
Qed.

Lemma Forall2_combine {X Y} (l : list X) (l' : list Y) idx xs ys :
  Forall2 (fun i a => nth_error l i = Some a) idx xs ->
  Forall2 (fun i b => nth_error l' i = Some b) idx ys ->
  Forall2 (fun i p => nth_error (combine l l') i = Some p) idx (combine xs ys).
Proof.
  intros H. revert ys. induction H as [| i a idx xs Hi _ IH]; intros ys H'.
  - inversion H'. constructor.
  - inversion H'; subst. cbn. constructor; auto.
    apply nth_error_combine; auto.
Qed.

Lemma nth_error_seq_all {X} (l : list X) :
  map (nth_error l) (seq 0 (List.length l)) = map Some l.
Proof.
  induction l as [| x l IH]; [reflexivity |].
  cbn [List.length seq map nth_error]. f_equal.
  rewrite <- seq_shift, map_map. exact IH.
Qed.

Lemma map_Some_inj {X} (l l' : list X) : map Some l = map Some l' -> l = l'.
Proof.
  revert l'. induction l as [| x l IH]; intros [| y l'] H; cbn in H;
    try discriminate; auto.
  inversion H. f_equal. auto.
Qed.

(** Taking a list at every index once gives the list, up to the order. *)
Lemma gather_permutation {X} (l : list X) idx r :
  Forall2 (fun i x => nth_error l i = Some x) idx r ->
  Permutation idx (seq 0 (List.length l)) ->
  Permutation r l.
Proof.
  intros HF.
  assert (E : map (nth_error l) idx = map Some r).
  { induction HF as [| i x idx r Hi _ IH]; [reflexivity |].
    cbn. rewrite Hi. f_equal. exact IH. }
  intros HP. apply (Permutation_map (nth_error l)) in HP.
  rewrite E, nth_error_seq_all in HP.
  apply Permutation_sym, Permutation_map_inv in HP as (l3 & E3 & HP).
  apply map_Some_inj in E3. subst l3. exact HP.
Qed.

Lemma preprocess_inr_labels {T} (A : arith T) (df : DataFrame T) X y :
  outcome (BaseDataset._preprocess A df) = inr (X, y) ->
  exists front name label, df = front ++ [(name, label)] /\ y = values label.
Proof.
  unfold BaseDataset._preprocess. intros H.
  apply outcome_bind_inr in H as (label & Hlast & H).
  apply outcome_bind_inr in H as (X1 & _ & H).
  apply outcome_bind_inr in H as (X2 & _ & H).
  cbn in H. inversion H; subst. rewrite outcome_lift in Hlast.
  apply iloc_last_inr in Hlast as (front & name & ->). eauto.
Qed.

Lemma load_data_inr {T} (fs : filesystem T) (self : BaseDataset.obj T) df :
  outcome (SimpleNSLKDD._load_data fs self) = inr df ->
  (fs (BaseDataset.data_path self) = None /\ df = [])
  \/ (fs (BaseDataset.data_path self) = Some (map snd df) /\ df <> []).
Proof.
  unfold SimpleNSLKDD._load_data, read_csv.
  destruct (fs (BaseDataset.data_path self)) as [[| c cols] |].
  - discriminate.
  - set (df0 := combine _ (c :: cols)).
    assert (Hsnd : map snd df0 = c :: cols).
    { unfold df0. apply combine_snd. rewrite length_map, length_seq. reflexivity. }
    unfold set_columns. rewrite Hsnd.
    set (names := SimpleNSLKDD.column_names _).
    destruct (_ =? _)%nat eqn:E; [| discriminate].
    rewrite outcome_lift. intros H.
    assert (Hdf : df = combine names (c :: cols)) by congruence.
    subst df. clear H. right.
    apply Nat.eqb_eq in E.
    assert (Hlen : List.length names = List.length (c :: cols)).
    { rewrite E, <- Hsnd, length_map. reflexivity. }
    rewrite (combine_snd _ _ Hlen). split; [reflexivity |].
    destruct names; [discriminate Hlen | discriminate].
  - cbn. intros H. inversion H. auto.
Qed.

(** X12.  The split loses no sample and repeats none: in a loader whose
    construction completed, the rows of [X_train] beside the labels of
    [y_train], followed by those of the test part, are the rows of [X]
    beside the labels of [y] in another order. *)
Theorem X12_split_is_a_rearrangement :
  forall {T} (A : arith T) (cv_order : splitter T)
         (load : BaseDataset.obj T -> M (DataFrame T))
         (data_path : string) (test_size : Binary64.float) (random_state : Z)
         (self : BaseDataset.obj T),
    splitter_ok cv_order ->
    outcome (BaseDataset.__init__ A cv_order load data_path test_size
               random_state) = inr self ->
    exists raw_df X y X_train y_train X_test y_test,
      outcome (load (fresh data_path test_size random_state)) = inr raw_df
      /\ outcome (BaseDataset._preprocess A raw_df) = inr (X, y)
      /\ snd (BaseDataset.get_data self)
         = (Some X_train, Some y_train, Some X_test, Some y_test)
      /\ Permutation (samples X_train y_train ++ samples X_test y_test)
                     (samples X y).
Proof.
  intros T A cv_order load path ts rs self Hcv H.
  apply init_inr in H as (raw_df & X & y & stratify & r & Hload & Hpre & Hr & ->).
  destruct r as [[[X_tr X_te] y_tr] y_te].
  destruct (train_test_split_inr A cv_order _ _ _ _ _ _ _ _ _ Hcv Hr)
    as (Hlen & train & test & Hperm & HXtr & Hytr & HXte & Hyte).
  exists raw_df, X, y, X_tr, y_tr, X_te, y_te.
  repeat split; auto.
  unfold samples.
  eapply Permutation_trans; [apply Permutation_app_comm |].
  apply (gather_permutation (combine X y) (test ++ train)).
  - apply Forall2_app; apply Forall2_combine; assumption.
  - rewrite length_combine, <- Hlen, Nat.min_id. exact Hperm.
Qed.

Lemma X12_split_witness :
  exists self X_train y_train X_test y_test,
    outcome (SimpleNSLKDD.new b64 sample_fs in_order "data/raw/simple_nslkdd.csv"
               BaseDataset.default_test_size 42) = inr self
    /\ snd (BaseDataset.get_data self)
       = (Some X_train, Some y_train, Some X_test, Some y_test)
    /\ (List.length (samples X_train y_train ++ samples X_test y_test) = 10)%nat.
Proof.
  destruct (outcome (SimpleNSLKDD.new b64 sample_fs in_order
                       "data/raw/simple_nslkdd.csv"
                       BaseDataset.default_test_size 42))
    as [e | self] eqn:H.
  - vm_compute in H. discriminate H.
  - destruct (X12_split_is_a_rearrangement b64 in_order
                (SimpleNSLKDD._load_data sample_fs)
                "data/raw/simple_nslkdd.csv" BaseDataset.default_test_size 42
                self in_order_ok H)
      as (raw_df & X & y & X_tr & y_tr & X_te & y_te & Hload & Hpre & Hget & HP).
    exists self, X_tr, y_tr, X_te, y_te. repeat split; auto.
    rewrite (Permutation_length HP).
    vm_compute in Hload. inversion Hload; subst raw_df.
    vm_compute in Hpre. inversion Hpre; subst. reflexivity.
Defined.

(** X13.  From the file to the caller: when [get_dataset] returns a
    loader, the file at the path has feature columns and a last column,
    and the labels in [y_train] and [y_test] together are the values of
    that last column, each row's label once. *)
Theorem X13_labels_of_the_file :
  forall {T} (A : arith T) (fs : filesystem T) (cv_order : splitter T)
         (name path : string) (self : BaseDataset.obj T),
    splitter_ok cv_order ->
    outcome (get_dataset A fs cv_order name path) = inr self ->
    exists features label y_train y_test,
      fs path = Some (features ++ [label])
      /\ BaseDataset.y_train self = Some y_train
      /\ BaseDataset.y_test self = Some y_test
      /\ Permutation (y_train ++ y_test) (values label).
Proof.
  intros T A fs cv_order name path self Hcv H.
  unfold get_dataset in H. cbn [lookup dataset_map] in H.
  destruct (name =? "simple_nslkdd")%string; [| discriminate H].
  change (outcome (BaseDataset.__init__ A cv_order (SimpleNSLKDD._load_data fs)
                     path BaseDataset.default_test_size
                     BaseDataset.default_random_state) = inr self) in H.
  apply init_inr in H as (raw_df & X & y & stratify & r & Hload & Hpre & Hr & ->).
  destruct r as [[[X_tr X_te] y_tr] y_te].
  apply preprocess_inr_labels in Hpre as (front & cname & label & -> & ->).
  apply load_data_inr in Hload as [[_ Hnil] | [Hfs _]].
  { destruct front; discriminate Hnil. }
  cbn [BaseDataset.data_path fresh] in Hfs.
  rewrite map_app in Hfs. cbn [map snd] in Hfs.
  destruct (train_test_split_inr A cv_order _ _ _ _ _ _ _ _ _ Hcv Hr)
    as (Hlen & train & test & Hperm & _ & Hytr & _ & Hyte).
  exists (map snd front), label, y_tr, y_te.
  repeat split; auto.
  eapply Permutation_trans; [apply Permutation_app_comm |].
  apply (gather_permutation (values label) (test ++ train)).
  - apply Forall2_app; assumption.
  - rewrite <- Hlen. exact Hperm.
Qed.

Lemma X13_labels_witness :
  exists self y_train y_test,
    outcome (get_dataset b64 sample_fs in_order "simple_nslkdd"
               "data/raw/simple_nslkdd.csv") = inr self
    /\ BaseDataset.y_train self = Some y_train
    /\ BaseDataset.y_test self = Some y_test
    /\ (List.length (y_train ++ y_test) = 10)%nat.
Proof.
  destruct (outcome (get_dataset b64 sample_fs in_order "simple_nslkdd"
                       "data/raw/simple_nslkdd.csv")) as [e | self] eqn:H.
  - vm_compute in H. discriminate H.
  - destruct (X13_labels_of_the_file b64 sample_fs in_order "simple_nslkdd"
                "data/raw/simple_nslkdd.csv" self in_order_ok H)
      as (features & label & y_tr & y_te & Hfs & Htr & Hte & HP).
    exists self, y_tr, y_te. repeat split; auto.
    rewrite (Permutation_length HP).
    unfold sample_fs in Hfs. cbn in Hfs. inversion Hfs as [Hcols].
    unfold sample_table in Hcols.
    apply (f_equal (@rev _)) in Hcols. rewrite rev_app_distr in Hcols.
    cbn in Hcols. inversion Hcols. reflexivity.
Defined.

(** ** Preprocessing: shapes *)

Section Shapes.
Context {T : Type} (A : arith T).

Lemma filter_all_none {X} (p : X -> bool) (l : list X) :
  List.length (filter p l) = List.length l ->
  filter (fun x => negb (p x)) l = [].
Proof.
  induction l as [| x l IH]; [reflexivity |].
  cbn. destruct (p x); cbn; intros H.
  - apply IH. lia.
  - pose proof (filter_length_le p l). lia.
Qed.

Lemma list_sum_map_length_concat {X} (L : list (list X)) :
  List.length (concat L) = list_sum (map (@List.length X) L).
Proof.
  induction L as [| l L IH]; [reflexivity |].
  cbn. rewrite length_app, IH. reflexivity.
Qed.

Lemma dummies_1d_length (c : colname * series T) :
  is_object c = true ->
  List.length (dummies_1d c) = (List.length (categories c) - 1)%nat.
Proof.
  unfold is_object, dummies_1d, categories.
  destruct (snd c) as [l | l | l]; try discriminate. intros _.
  rewrite length_map. destruct (levels l); cbn; lia.
Qed.

Lemma dummies_1d_columns (c : colname * series T) d :
  In d (dummies_1d c) ->
  is_object d = false /\ series_len (snd d) = series_len (snd c).
Proof.
  unfold dummies_1d. destruct (snd c) as [l | l | l]; try (intros []).
  intros H. apply in_map_iff in H as (lv & <- & _).
  split; [reflexivity |].
  unfold series_len. cbn. now rewrite !length_map.
Qed.

(** The encoded frame: its width, its dtypes and its rows. *)
Lemma get_dummies_inr (X D : DataFrame T) :
  get_dummies X = inr D ->
  List.length D = encoded_width X
  /\ (forall d, In d D -> is_object d = false)
  /\ (forall n, rectangular n X -> rectangular n D).
Proof.
  unfold get_dummies.
  set (enc := filter is_object X).
  set (rest := filter (fun c => negb (is_object c)) X).
  set (pre := if (List.length enc =? List.length X)%nat then [] else [rest]).
  assert (Hpre : concat pre = rest).
  { unfold pre. destruct (Nat.eqb_spec (List.length enc) (List.length X)) as [E | E].
    - unfold rest. now rewrite (filter_all_none is_object X E).
    - cbn. apply app_nil_r. }
  destruct (pre ++ map dummies_1d enc) eqn:Hwd; [discriminate |].
  rewrite <- Hwd. intros H. inversion H; subst D; clear H.
  rewrite concat_app, Hpre. repeat split.
  - rewrite length_app, list_sum_map_length_concat, map_map.
    unfold encoded_width. fold enc rest. f_equal. f_equal.
    apply map_ext_in. intros c Hc. apply dummies_1d_length.
    apply filter_In in Hc. tauto.
  - intros d Hd. apply in_app_or in Hd as [Hd | Hd].
    + apply filter_In in Hd as [_ Hd]. now apply negb_true_iff in Hd.
    + apply in_concat in Hd as (ds & Hds & Hd).
      apply in_map_iff in Hds as (c & <- & _).
      apply (dummies_1d_columns c d Hd).
  - intros n Hrect. unfold rectangular in *. rewrite Forall_forall in *.
    intros d Hd. apply in_app_or in Hd as [Hd | Hd].
    + apply filter_In in Hd as [Hd _]. auto.
    + apply in_concat in Hd as (ds & Hds & Hd).
      apply in_map_iff in Hds as (c & <- & Hc).
      apply filter_In in Hc as [Hc _].
      rewrite (proj2 (dummies_1d_columns c d Hd)). auto.
Qed.

Lemma to_float_length (c : colname * series T) col :
  to_float A c = inr col -> List.length col = series_len (snd c).
Proof.
  unfold to_float, series_len.
  destruct (snd c) as [l | l | l]; intros H; inversion H; cbn;
    now rewrite !length_map.
Qed.

Lemma row_width (cols : list (list T)) n i :
  Forall (fun c => List.length c = n) cols -> (i < n)%nat ->
  List.length
    (flat_map (fun c => match nth_error c i with
                        | Some v => [v]
                        | None => []
                        end) cols)
  = List.length cols.
Proof.
  intros Hall Hi. induction Hall as [| c cols Hc _ IH]; [reflexivity |].
  cbn [flat_map]. rewrite length_app, IH.
  destruct (nth_error c i) eqn:E; [reflexivity |].
  apply nth_error_None in E. lia.
Qed.

Lemma to_float_columns_length (D : DataFrame T) cols n :
  rectangular n D ->
  Forall2 (fun d c => to_float A d = inr c) D cols ->
  Forall (fun c => List.length c = n) cols.
Proof.
  intros Hrect HF. unfold rectangular in Hrect.
  induction HF as [| d c ds cs Hd _ IH]; [constructor |].
  inversion Hrect as [| ? ? H1 H2]. constructor; [| auto].
  rewrite (to_float_length _ _ Hd). exact H1.
Qed.

(** The array the scaler returns for a rectangular frame. *)
Lemma fit_transform_shape (D : DataFrame T) (m : matrix T) n :
  rectangular n D ->
  MinMaxScaler_fit_transform A D = inr m ->
  (1 <= n)%nat /\ (1 <= List.length D)%nat
  /\ List.length m = n
  /\ forall row, In row m -> List.length row = List.length D.
Proof.
  intros Hrect. unfold MinMaxScaler_fit_transform.
  destruct (sequence (map (to_float A) D)) as [e | cols] eqn:Hseq;
    [discriminate |].
  destruct (existsb _ cols); [discriminate |].
  destruct (Nat.eqb_spec (nrows D) 0) as [E | E]; [discriminate |].
  apply sequence_inr in Hseq.
  assert (Hlen : List.length D = List.length cols)
    by (eapply Forall2_length; eauto).
  intros H.
  assert (Hm : m = rows_of (nrows D) (map (scale_column A) cols)
               /\ (1 <= List.length cols)%nat).
  { destruct cols; [discriminate H |].
    inversion H. split; [reflexivity | cbn; lia]. }
  clear H. destruct Hm as [-> Hne].
  assert (Hn : nrows D = n).
  { destruct D as [| [name s] D']; [cbn in Hlen; lia |].
    inversion Hrect as [| ? ? H1 H2]. exact H1. }
  rewrite Hn in *.
  assert (Hcols : Forall (fun c => List.length c = n)
                         (map (scale_column A) cols)).
  { pose proof (to_float_columns_length D cols n Hrect Hseq) as Hall.
    rewrite Forall_forall in *. intros c Hc.
    apply in_map_iff in Hc as (c0 & <- & Hc0).
    unfold scale_column. rewrite length_map. auto. }
  repeat split.
  - lia.
  - rewrite Hlen. exact Hne.
  - unfold rows_of. now rewrite length_map, length_seq.
  - intros row Hrow. unfold rows_of in Hrow.
    apply in_map_iff in Hrow as (i & <- & Hi).
    apply in_seq in Hi.
    rewrite (row_width _ n i Hcols) by lia.
    now rewrite length_map, Hlen.
Qed.

End Shapes.

Lemma rectangular_app {T} n (df df' : DataFrame T) :
  rectangular n (df ++ df') -> rectangular n df /\ rectangular n df'.
Proof. unfold rectangular. apply Forall_app. Qed.

(** X14.  For a table of [n] rows, preprocessing returns a feature matrix
    of [n] rows and a label vector of [n] entries, and there is at least
    one row.  Every row of the matrix has the same width: the number of
    numeric feature columns plus, for each categorical feature column, the
    number of its categories less one; the width is at least 1. *)
Theorem X14_preprocess_shapes :
  forall {T} (A : arith T) (df : DataFrame T) (n : nat)
         (X : matrix T) (y : list (cell T)),
    rectangular n df ->
    outcome (BaseDataset._preprocess A df) = inr (X, y) ->
    (1 <= n)%nat
    /\ List.length X = n
    /\ List.length y = n
    /\ (1 <= encoded_width (iloc_but_last df))%nat
    /\ forall row, In row X ->
         List.length row = encoded_width (iloc_but_last df).
Proof.
  intros T A df n X y Hrect H.
  unfold BaseDataset._preprocess in H.
  apply outcome_bind_inr in H as (label & Hlast & H).
  apply outcome_bind_inr in H as (D & Hdum & H).
  apply outcome_bind_inr in H as (m & Hfit & H).
  cbn in H. inversion H; subst; clear H.
  rewrite outcome_lift in Hlast. rewrite outcome_lift in Hdum.
  rewrite outcome_lift in Hfit.
  apply iloc_last_inr in Hlast as (front & name & ->).
  unfold iloc_but_last in *. rewrite removelast_last in *.
  apply rectangular_app in Hrect as [Hfront Hlabel].
  destruct (get_dummies_inr front D Hdum) as (Hwidth & _ & HrectD).
  destruct (fit_transform_shape A D X n (HrectD n Hfront) Hfit)
    as (Hn & Hk & Hrows & Hrow).
  inversion Hlabel; subst.
  repeat split; auto.
  - rewrite <- Hwidth. exact Hk.
  - intros row Hin. rewrite <- Hwidth. auto.
Qed.

Lemma X14_preprocess_witness :
  exists X y,
    outcome (BaseDataset._preprocess exact sample_frame_Q) = inr (X, y)
    /\ List.length X = 3%nat
    /\ List.length y = 3%nat
    /\ forall row, In row X -> List.length row = 3%nat.
Proof.
  destruct (outcome (BaseDataset._preprocess exact sample_frame_Q))
    as [e | [X y]] eqn:H.
  - vm_compute in H. discriminate H.
  - assert (Hrect : rectangular 3 sample_frame_Q)
      by (repeat constructor).
    destruct (X14_preprocess_shapes exact sample_frame_Q 3 X y Hrect H)
      as (_ & HX & Hy & _ & Hrow).
    exists X, y. repeat split; auto.
Defined.

(** ** Scaling in float64: the lower end *)

Module ScalingFacts.
Import Binary64.

(** For a number [a] (zero or finite), [a + (0 - a)] is [+0.0]. *)
Lemma add_opposite a :
  isnan a = false -> isinf a = false ->
  add a (sub zero a) = S754_zero false.
Proof.
  destruct a as [s | s | | s m e]; cbn; try discriminate; intros _ _.
  - destruct s; reflexivity.
  - unfold add, sub, zero. cbn [SFsub SFadd negb].
    replace (cond_Zopp s (Z.pos (fst (shl_align m e (Z.min e e))))
             + cond_Zopp (negb s) (Z.pos (fst (shl_align m e (Z.min e e)))))
      with 0 by (destruct s; cbn [cond_Zopp negb]; lia).
    reflexivity.
Qed.

End ScalingFacts.

(** The scale factor the scaler fits on a column. *)
Lemma scale_column_unfold {T} (A : arith T) (col : list T) :
  scale_column A col
  = let scale_ :=
      div A (sub A (one A) (zero A))
          (handle_zeros_in_scale A (sub A (nanmax A col) (nanmin A col))) in
    map (fun x => add A (mul A x scale_)
                      (sub A (zero A) (mul A (nanmin A col) scale_))) col.
Proof. reflexivity. Qed.

(** X15.  In float64 the scaler sends the observed minimum of a column to
    0.0 exactly, whatever the rounding of the scale factor: wherever the
    column holds its minimum, the scaled column holds [+0.0], provided the
    product of the minimum and the scale factor is a number (no overflow,
    no NaN). *)
Theorem X15_float64_minimum_scales_to_zero :
  forall (col : list Binary64.float) (i : nat),
    let scale_ :=
      Binary64.div (Binary64.sub Binary64.one Binary64.zero)
        (handle_zeros_in_scale b64
           (Binary64.sub (nanmax b64 col) (nanmin b64 col))) in
    Binary64.isnan (Binary64.mul (nanmin b64 col) scale_) = false ->
    Binary64.isinf (Binary64.mul (nanmin b64 col) scale_) = false ->
    nth_error col i = Some (nanmin b64 col) ->
    nth_error (scale_column b64 col) i = Some (S754_zero false).
Proof.
  intros col i scale_ Hnan Hinf Hi.
  rewrite scale_column_unfold. cbn zeta.
  rewrite nth_error_map, Hi. cbn [option_map]. f_equal.
  apply (ScalingFacts.add_opposite _ Hnan Hinf).
Qed.

Lemma X15_float64_minimum_witness :
  nth_error (scale_column b64 (map Binary64.of_int [3; 1; 6])) 1
  = Some (S754_zero false).
Proof.
  apply (X15_float64_minimum_scales_to_zero
           (map Binary64.of_int [3; 1; 6]) 1);
    vm_compute; reflexivity.
Defined.

(** ** Encoding: the categories of a column *)

Section Categories.

Lemma ascii_compare_lt_trans a b c :
  Ascii.compare a b = Lt -> Ascii.compare b c = Lt -> Ascii.compare a c = Lt.
Proof.
  unfold Ascii.compare. rewrite !N.compare_lt_iff. apply N.lt_trans.
Qed.

Lemma string_compare_lt_trans s1 s2 s3 :
  String.compare s1 s2 = Lt -> String.compare s2 s3 = Lt ->
  String.compare s1 s3 = Lt.
Proof.
  revert s2 s3. induction s1 as [| a s1 IH]; intros [| b s2] [| c s3]; cbn;
    try discriminate; auto.
  destruct (Ascii.compare a b) eqn:Eab; try discriminate;
    destruct (Ascii.compare b c) eqn:Ebc; try discriminate.
  - apply Ascii.compare_eq_iff in Eab, Ebc. subst.
    assert (E : Ascii.compare c c = Eq) by (unfold Ascii.compare; apply N.compare_refl).
    rewrite E. apply IH.
  - apply Ascii.compare_eq_iff in Eab. subst. rewrite Ebc. auto.
  - apply Ascii.compare_eq_iff in Ebc. subst. rewrite Eab. auto.
  - rewrite (ascii_compare_lt_trans _ _ _ Eab Ebc). auto.
Qed.

Lemma string_lt_trans a b c : string_lt a b -> string_lt b c -> string_lt a c.
Proof.
  unfold string_lt, String.ltb. intros H1 H2.
  destruct (String.compare a b) eqn:E1; try discriminate.
  destruct (String.compare b c) eqn:E2; try discriminate.
  now rewrite (string_compare_lt_trans _ _ _ E1 E2).
Qed.

Lemma string_lt_irrefl a : ~ string_lt a a.
Proof.
  unfold string_lt, String.ltb. intros H.
  destruct (String.compare a a) eqn:E; try discriminate.
  pose proof (String.compare_antisym a a) as Ha. rewrite E in Ha.
  discriminate Ha.
Qed.

(** Two strings that are neither equal nor in order are in the other
    order. *)
Lemma not_lt_gt a b : (a =? b)%string = false -> String.ltb a b = false -> string_lt b a.
Proof.
  unfold string_lt, String.ltb. intros Hne Hlt.
  rewrite (String.compare_antisym b a).
  destruct (String.compare a b) eqn:E; try discriminate; [| reflexivity].
  apply String.compare_eq_iff in E. subst.
  rewrite String.eqb_refl in Hne. discriminate.
Qed.

Lemma insert_sorted_In s l x :
  In x (insert_sorted s l) <-> x = s \/ In x l.
Proof.
  induction l as [| y l IH]; cbn.
  - intuition.
  - destruct (String.eqb_spec s y) as [-> | Hne].
    + cbn. intuition.
    + destruct (String.ltb s y); cbn; [intuition |].
      rewrite IH. intuition.
Qed.

Lemma insert_sorted_sorted s l :
  StronglySorted string_lt l -> StronglySorted string_lt (insert_sorted s l).
Proof.
  induction 1 as [| y l Hl IH Hy]; cbn.
  - constructor; constructor.
  - destruct (s =? y)%string eqn:Heq; [constructor; auto |].
    destruct (String.ltb s y) eqn:Hlt.
    + constructor; [constructor; auto |].
      constructor; [exact Hlt |].
      rewrite Forall_forall in *. intros z Hz.
      apply (string_lt_trans s y z); auto.
    + constructor; [exact IH |].
      rewrite Forall_forall in *. intros z Hz.
      apply insert_sorted_In in Hz as [-> | Hz]; auto.
      apply not_lt_gt; auto.
Qed.

Lemma levels_sorted l : StronglySorted string_lt (levels l).
Proof.
  unfold levels. induction l as [| s l IH]; cbn.
  - constructor.
  - apply insert_sorted_sorted. exact IH.
Qed.

Lemma levels_In l x : In x (levels l) <-> In x l.
Proof.
  unfold levels. induction l as [| s l IH]; cbn; [tauto |].
  rewrite insert_sorted_In, IH. intuition.
Qed.

Lemma sorted_NoDup l : StronglySorted string_lt l -> NoDup l.
Proof.
  induction 1 as [| y l Hl IH Hy]; constructor; auto.
  intros Hin. rewrite Forall_forall in Hy.
  apply (string_lt_irrefl y). auto.
Qed.

End Categories.

(** X16.  The encoding of a categorical column with values [l]: its
    categories are the distinct values of [l], each once, in increasing
    order; the encoded frame has one indicator column for each category
    but the smallest, named [<column>_<category>], whose entry in a row is
    1 when the row holds that category and 0 otherwise. *)
Theorem X16_drop_first_encoding :
  forall {T} (name : colname) (l : list string),
    let c : colname * series T := (name, ObjCol l) in
    NoDup (categories c)
    /\ (forall s, In s (categories c) <-> In s l)
    /\ StronglySorted string_lt (categories c)
    /\ dummies_1d c
       = map (fun lv =>
                (Name (str_colname name ++ "_" ++ lv)%string,
                 IntCol (map (fun v => if (v =? lv)%string then 1 else 0) l)))
             (tl (categories c)).
Proof.
  intros T name l c. unfold c, categories. cbn [snd].
  repeat split.
  - apply sorted_NoDup. apply levels_sorted.
  - apply levels_In.
  - apply levels_In.
  - apply levels_sorted.
Qed.

(** ** Scaling computed exactly: order and end points *)

Section ExactEndPoints.
Local Open Scope Q_scope.



End ExactEndPoints.


